(** * OAuth callback and hub/project orchestration of the APS data-model demo

    A shallow embedding of [app.ts] (the Express application: the authorize
    redirect, the OAuth callback and [performGraphQLQuery]) and of
    [graphql_client.ts] (the GraphQL gateway), followed by the properties
    the specification states about them.

    Conventions of the embedding.
    - A JavaScript value that reaches the program is a JSON value or
      [undefined]; it is the inductive [JsValue].
    - A string is the sequence of its UTF-8 bytes.
    - Code that can throw runs in the monad [M]: explicit passing of the
      [World] (the session slot and the chronological list of effects) with
      a completion that is either normal or a thrown [JsError].
    - The token endpoint and the GraphQL endpoint are outside the program;
      a [Backend] gives what each call answers. *)

From Stdlib Require Import String Ascii List Bool Arith Lia.
From Stdlib Require Import Decimal DecimalString.
Import ListNotations.
Open Scope string_scope.

(** ** JavaScript values *)

#[local] Set Warnings "-register-all".

Inductive JsValue : Type :=
| VUndef
| VNull
| VBool (b : bool)
| VNum (lit : string)   (* a Number, carried by the text that
                           Number.prototype.toString gives it: 0, 42, 1.5 *)
| VStr (s : string)
| VArr (items : list JsValue)
| VObj (fields : list (string * JsValue)).

(** An [Error] object: the program only ever reads [message]. *)
Record JsError : Type := mkError { name : string; message : string }.

Definition TypeError (msg : string) : JsError := mkError "TypeError" msg.

Inductive Completion (A : Type) : Type :=
| Normal (a : A)
| Thrown (e : JsError).
Arguments Normal {A} a.
Arguments Thrown {A} e.

(** Own property of an object literal; the first binding of a key wins. *)
Fixpoint own_property (k : string) (fields : list (string * JsValue))
  : option JsValue :=
  match fields with
  | [] => None
  | (k', v) :: rest => if String.eqb k k' then Some v else own_property k rest
  end.

Definition nullish (v : JsValue) : bool :=
  match v with
  | VUndef | VNull => true
  | _ => false
  end.

(** ToBoolean, as used by [!x]. *)
Definition truthy (v : JsValue) : bool :=
  match v with
  | VUndef | VNull => false
  | VBool b => b
  | VNum lit => negb (String.eqb lit "0" || String.eqb lit "NaN")
  | VStr s => negb (String.eqb s "")
  | VArr _ | VObj _ => true
  end.

Definition type_name (v : JsValue) : string :=
  match v with
  | VNull => "null"
  | _ => "undefined"
  end.

(** The property read [v.k], for the keys this program reads (hubs, results,
    id, name, hub, projects, access_token): none of them is defined on a
    built-in prototype, so the read gives the own property of an object,
    [undefined] on any other non-nullish value, and throws on [null] and
    [undefined]. *)
Definition get (v : JsValue) (k : string) : Completion JsValue :=
  match v with
  | VUndef | VNull =>
      Thrown (TypeError ("Cannot read properties of " ++ type_name v
                           ++ " (reading '" ++ k ++ "')"))
  | VObj fields =>
      match own_property k fields with
      | Some x => Normal x
      | None => Normal VUndef
      end
  | _ => Normal VUndef
  end.

(** The optional chain [v?.k]. *)
Definition opt_get (v : JsValue) (k : string) : Completion JsValue :=
  if nullish v then Normal VUndef else get v k.

(** [v.length === 0]: arrays and strings carry their own length, an object
    may have a property of that name, every other value reads [undefined]. *)
Definition length_is_zero (v : JsValue) : bool :=
  match v with
  | VArr items => match items with [] => true | _ => false end
  | VStr s => String.eqb s ""
  | VObj fields =>
      match own_property "length" fields with
      | Some (VNum lit) => String.eqb lit "0"
      | _ => false
      end
  | _ => false
  end.

(** ToString, as applied by a template literal [`${v}`].  An array joins its
    elements with commas, [null] and [undefined] elements giving the empty
    text.  A plain object prints through Object.prototype.toString unless an
    own (hence non-callable) [toString] property shadows it, in which case
    the conversion to a primitive fails. *)
Fixpoint to_string (v : JsValue) : Completion string :=
  match v with
  | VUndef => Normal "undefined"
  | VNull => Normal "null"
  | VBool true => Normal "true"
  | VBool false => Normal "false"
  | VNum lit => Normal lit
  | VStr s => Normal s
  | VArr items =>
      (fix join (l : list JsValue) : Completion string :=
         match l with
         | [] => Normal ""
         | x :: rest =>
             match (if nullish x then Normal "" else to_string x) with
             | Thrown e => Thrown e
             | Normal sx =>
                 match rest with
                 | [] => Normal sx
                 | _ :: _ =>
                     match join rest with
                     | Thrown e => Thrown e
                     | Normal sr => Normal (sx ++ "," ++ sr)
                     end
                 end
             end
         end) items
  | VObj fields =>
      match own_property "toString" fields with
      | Some _ => Thrown (TypeError "Cannot convert object to primitive value")
      | None => Normal "[object Object]"
      end
  end.

(** Decimal text of a natural number (the array index in the hub listing). *)
Definition nat_to_string (n : nat) : string :=
  NilEmpty.string_of_uint (Nat.to_uint n).

(** ** The world and the monad of effects *)

(** The GraphQL gateway handle of [createGraphQLClient]. *)
Record GraphQLClient : Type := mkClient
  { endpoint : string;
    headers : list (string * string) }.

(** The two documents the gateway sends: [query GetHubs] and
    [query GetProjects($hubId: ID!)] with its variables [{ hubId }]. *)
Inductive Operation : Type :=
| GetHubs
| GetProjects (hubId : JsValue).

Inductive Effect : Type :=
| HttpPost (url body : string)
| GraphQLRequest (client : GraphQLClient) (op : Operation)
| SessionWrite (v : JsValue)
| ConsoleLog (line : string)
| ConsoleError (label : string) (e : JsError).

(** [accessToken] is the slot [req.session.accessToken]: [None] until it is
    assigned.  [effects] is in chronological order. *)
Record World : Type := mkWorld
  { accessToken : option JsValue;
    effects : list Effect }.

(** What the outside answers: [axios_post url body] is the [data] of the
    response or the error axios throws; [client_request] is the payload
    graphql-request resolves with, or the error it rejects with. *)
Record Backend : Type := mkBackend
  { axios_post : string -> string -> Completion JsValue;
    client_request : GraphQLClient -> Operation -> Completion JsValue }.

Definition M (A : Type) : Type := World -> Completion A * World.

Definition ret {A} (a : A) : M A := fun w => (Normal a, w).

Definition throw {A} (e : JsError) : M A := fun w => (Thrown e, w).

Definition bind {A B} (m : M A) (k : A -> M B) : M B :=
  fun w =>
    match m w with
    | (Normal a, w') => k a w'
    | (Thrown e, w') => (Thrown e, w')
    end.

(** [try { body } catch (error) { handler }] *)
Definition try_catch {A} (body : M A) (handler : JsError -> M A) : M A :=
  fun w =>
    match body w with
    | (Normal a, w') => (Normal a, w')
    | (Thrown e, w') => handler e w'
    end.

Definition lift {A} (c : Completion A) : M A := fun w => (c, w).

(** The world after further effects, the session slot untouched. *)
Definition log (w : World) (evs : list Effect) : World :=
  mkWorld (accessToken w) (effects w ++ evs).

Definition emit (ev : Effect) : M unit := fun w => (Normal tt, log w [ev]).

Declare Scope js_scope.
Delimit Scope js_scope with js.
Notation "x <- c ;; k" := (bind c (fun x => k))
  (at level 61, c at next level, right associativity) : js_scope.
Notation "c ;;; k" := (bind c (fun _ => k))
  (at level 61, right associativity) : js_scope.
Open Scope js_scope.

Definition console_log (line : string) : M unit := emit (ConsoleLog line).

Definition console_error (label : string) (e : JsError) : M unit :=
  emit (ConsoleError label e).

(** [req.session.accessToken = v] *)
Definition session_set (v : JsValue) : M unit :=
  fun w => (Normal tt, mkWorld (Some v) (effects w ++ [SessionWrite v])).

(** [Array.prototype.forEach] with a callback that may throw. *)
Fixpoint forEach (cb : JsValue -> nat -> M unit) (items : list JsValue)
    (index : nat) : M unit :=
  match items with
  | [] => ret tt
  | x :: rest => cb x index ;;; forEach cb rest (S index)
  end.

(** ** graphql_client.ts *)

Definition GRAPHQL_URL : string := "https://developer.api.autodesk.com/graphql".

Definition createGraphQLClient (token : JsValue) : Completion GraphQLClient :=
  match to_string token with
  | Thrown e => Thrown e
  | Normal t =>
      Normal (mkClient GRAPHQL_URL
                [("Authorization", "Bearer " ++ t);
                 ("Content-Type", "application/json")])
  end.

Definition request (bk : Backend) (client : GraphQLClient) (op : Operation)
  : M JsValue :=
  emit (GraphQLRequest client op) ;;; lift (client_request bk client op).

Definition getHubs (bk : Backend) (client : GraphQLClient) : M JsValue :=
  request bk client GetHubs.

Definition getProjects (bk : Backend) (client : GraphQLClient)
    (hubId : JsValue) : M JsValue :=
  request bk client (GetProjects hubId).

(** ** app.ts: the orchestrator *)

Definition error_object (msg : string) : JsValue :=
  VObj [("error", VStr msg)].

Definition error_details (msg details : string) : JsValue :=
  VObj [("error", VStr msg); ("details", VStr details)].

(** The callback of [hubs.forEach]: one console line per hub. *)
Definition print_hub (hub : JsValue) (index : nat) : M unit :=
  id <- lift (get hub "id") ;;
  ids <- lift (to_string id) ;;
  nm <- lift (get hub "name") ;;
  nms <- lift (to_string nm) ;;
  console_log (nat_to_string (index + 1) ++ ". Hub ID: " ++ ids
                 ++ ", Name: " ++ nms).

Definition performGraphQLQuery (bk : Backend) (token : JsValue) : M JsValue :=
  try_catch
    (client <- lift (createGraphQLClient token) ;;
     (* Step 1: retrieve hubs *)
     hubsResult <- getHubs bk client ;;
     hubs_field <- lift (get hubsResult "hubs") ;;
     hubs <- lift (opt_get hubs_field "results") ;;
     if negb (truthy hubs) || length_is_zero hubs then
       ret (error_object "No hubs found or access denied.")
     else
       console_log "Available Hubs:" ;;;
       match hubs with
       | VArr items =>
           forEach print_hub items 0 ;;;
           (* Step 2: the first hub *)
           hubId <- lift (get (hd VUndef items) "id") ;;
           hubIdText <- lift (to_string hubId) ;;
           console_log ("Using Hub ID: " ++ hubIdText) ;;;
           (* Step 3: projects of the selected hub *)
           projectsResult <- getProjects bk client hubId ;;
           hub_field <- lift (get projectsResult "hub") ;;
           projects_field <- lift (opt_get hub_field "projects") ;;
           projects <- lift (opt_get projects_field "results") ;;
           if negb (truthy projects) || length_is_zero projects then
             msgId <- lift (to_string hubId) ;;
             ret (error_object ("No projects found in hub " ++ msgId ++ "."))
           else
             ret projectsResult
       | _ =>
           (* only an array has a callable forEach *)
           throw (TypeError "hubs.forEach is not a function")
       end)
    (fun error =>
       console_error "Error during GraphQL query:" error ;;;
       ret (error_details "An error occurred during the GraphQL query"
              (message error))).

(** ** URLSearchParams *)

(** Bytes the application/x-www-form-urlencoded serializer leaves as they
    are: [*], [-], [.], [_], digits and ASCII letters. *)
Definition is_unreserved (c : ascii) : bool :=
  let n := nat_of_ascii c in
  ((n =? 42) || (n =? 45) || (n =? 46) || (n =? 95)
   || ((48 <=? n) && (n <=? 57))
   || ((65 <=? n) && (n <=? 90))
   || ((97 <=? n) && (n <=? 122)))%nat.

Definition hex_digit (n : nat) : ascii :=
  match String.get n "0123456789ABCDEF" with
  | Some c => c
  | None => "0"%char
  end.

Fixpoint urlencode (s : string) : string :=
  match s with
  | EmptyString => EmptyString
  | String c rest =>
      if is_unreserved c then String c (urlencode rest)
      else if Ascii.eqb c " " then String "+" (urlencode rest)
      else
        let n := nat_of_ascii c in
        String "%" (String (hex_digit (n / 16))
                      (String (hex_digit (n mod 16)) (urlencode rest)))
  end.

(** [params.toString()] for the list of name/value pairs of [params]. *)
Definition URLSearchParams_toString (params : list (string * string)) : string :=
  String.concat "&"
    (map (fun p => urlencode (fst p) ++ "=" ++ urlencode (snd p)) params).

(** ** app.ts: configuration, responses and the two routes *)

Record Config : Type := mkConfig
  { CLIENT_ID : string;
    CLIENT_SECRET : string }.

(** The startup check: the process exits unless both identifiers are set to
    a non-empty text. *)
Definition load_config (env_id env_secret : option string) : option Config :=
  match env_id, env_secret with
  | Some i, Some s =>
      if String.eqb i "" || String.eqb s "" then None else Some (mkConfig i s)
  | _, _ => None
  end.

Definition REDIRECT_URI : string := "http://localhost:8080/api/auth/callback".

Definition SCOPES : list string := ["data:read"; "account:read"; "viewables:read"].

Definition authUrl : string :=
  "https://developer.api.autodesk.com/authentication/v2/authorize".

Definition tokenUrl : string :=
  "https://developer.api.autodesk.com/authentication/v2/token".

Record Response : Type := mkResponse
  { status : nat;
    location : option string;
    body : option JsValue }.

(** [res.redirect(url)]: status 302 and the URL as [Location] (the URLs built
    here hold only characters that Express leaves as they are). *)
Definition redirect (url : string) : Response := mkResponse 302 (Some url) None.

(** [res.status(code).json(payload)]; [res.json] alone answers 200. *)
Definition json (code : nat) (payload : JsValue) : Response :=
  mkResponse code None (Some payload).

(** The parameters of the authorize request, in the order of the object
    literal given to [URLSearchParams]. *)
Definition authorize_params (cfg : Config) : list (string * string) :=
  [("response_type", "code");
   ("client_id", CLIENT_ID cfg);
   ("redirect_uri", REDIRECT_URI);
   ("scope", String.concat " " SCOPES)].

(** [app.get('/')] *)
Definition root_handler (cfg : Config) : M Response :=
  ret (redirect (authUrl ++ "?" ++ URLSearchParams_toString (authorize_params cfg))).

(** [req.query.code]: the parsed query of the request, read at [code]. *)
Definition query_param (query : list (string * JsValue)) (k : string) : JsValue :=
  match own_property k query with
  | Some v => v
  | None => VUndef
  end.

Definition token_params (cfg : Config) (code : string) : list (string * string) :=
  [("client_id", CLIENT_ID cfg);
   ("client_secret", CLIENT_SECRET cfg);
   ("grant_type", "authorization_code");
   ("code", code);
   ("redirect_uri", REDIRECT_URI)].

Definition post (bk : Backend) (url data : string) : M JsValue :=
  emit (HttpPost url data) ;;; lift (axios_post bk url data).

(** [app.get('/api/auth/callback')] *)
Definition callback_handler (cfg : Config) (bk : Backend)
    (query : list (string * JsValue)) : M Response :=
  let code := query_param query "code" in
  if negb (truthy code) then
    ret (json 400 (error_object "Authorization code not found"))
  else
    try_catch
      (* Exchange code for access token *)
      (codeText <- lift (to_string code) ;;
       let data := URLSearchParams_toString (token_params cfg codeText) in
       tokens <- post bk tokenUrl data ;;
       token <- lift (get tokens "access_token") ;;
       session_set token ;;;
       (* Perform GraphQL query *)
       result <- performGraphQLQuery bk token ;;
       ret (json 200 result))
      (fun error =>
         console_error "Error during OAuth callback:" error ;;;
         ret (json 500 (error_details "Failed to obtain access token"
                          (message error)))).

(** The two routes the application registers. *)
Inductive Request : Type :=
| GetRoot
| GetCallback (query : list (string * JsValue)).

Definition app (cfg : Config) (bk : Backend) (req : Request) : M Response :=
  match req with
  | GetRoot => root_handler cfg
  | GetCallback query => callback_handler cfg bk query
  end.

(** A sequence of requests of one session, each served against the backend
    of its moment; every handler finishes with a response (a throw inside a
    handler is caught there), and the responses come out in order. *)
Fixpoint serve (cfg : Config) (steps : list (Backend * Request)) (w : World)
  : list (Completion Response) * World :=
  match steps with
  | [] => ([], w)
  | (bk, req) :: rest =>
      let (r, w') := app cfg bk req w in
      let (rs, w'') := serve cfg rest w' in
      (r :: rs, w'')
  end.

(** ** Vocabulary of the properties *)

(** The GraphQL operations among a list of effects, in order. *)
Fixpoint graphql_ops (evs : list Effect) : list Operation :=
  match evs with
  | [] => []
  | GraphQLRequest _ op :: rest => op :: graphql_ops rest
  | _ :: rest => graphql_ops rest
  end.

(** The hub ids the projects query was sent with, in order. *)
Fixpoint project_queries (evs : list Effect) : list JsValue :=
  match evs with
  | [] => []
  | GraphQLRequest _ (GetProjects hubId) :: rest => hubId :: project_queries rest
  | _ :: rest => project_queries rest
  end.

(** The client [createGraphQLClient] builds for a token text. *)
Definition client_of (token : string) : GraphQLClient :=
  mkClient GRAPHQL_URL
    [("Authorization", "Bearer " ++ token);
     ("Content-Type", "application/json")].

(** [v.k] where the read cannot throw. *)
Definition field (v : JsValue) (k : string) : JsValue :=
  match get v k with
  | Normal x => x
  | Thrown _ => VUndef
  end.

(** [hubsResult.hubs?.results] and [projectsResult.hub?.projects?.results]
    on a payload that is an object. *)
Definition hubs_of (payload : JsValue) : Completion JsValue :=
  match get payload "hubs" with
  | Normal f => opt_get f "results"
  | Thrown e => Thrown e
  end.

Definition projects_of (payload : JsValue) : Completion JsValue :=
  match get payload "hub" with
  | Normal h =>
      match opt_get h "projects" with
      | Normal p => opt_get p "results"
      | Thrown e => Thrown e
      end
  | Thrown e => Thrown e
  end.

Definition is_string (v : JsValue) : bool :=
  match v with
  | VStr _ => true
  | _ => false
  end.

(** A Hub of the data model: an object with a text [id] and a text [name]. *)
Definition is_hub (v : JsValue) : bool :=
  match v with
  | VObj _ => is_string (field v "id") && is_string (field v "name")
  | _ => false
  end.

(** "Absent or empty list". *)
Definition no_items (v : JsValue) : bool :=
  match v with
  | VUndef | VNull | VArr [] => true
  | _ => false
  end.

Definition text (v : JsValue) : string :=
  match to_string v with
  | Normal s => s
  | Thrown _ => ""
  end.

(** The console lines of the hub listing. *)
Fixpoint hub_lines (items : list JsValue) (index : nat) : list Effect :=
  match items with
  | [] => []
  | hub :: rest =>
      ConsoleLog (nat_to_string (index + 1) ++ ". Hub ID: " ++ text (field hub "id")
                    ++ ", Name: " ++ text (field hub "name"))
      :: hub_lines rest (S index)
  end.

(** The effects of steps 1 and 2 when the hubs list is [items] and it is
    made of hubs: the hubs query, the listing, the selection line. *)
Definition selection_effects (token : string) (items : list JsValue)
  : list Effect :=
  [GraphQLRequest (client_of token) GetHubs; ConsoleLog "Available Hubs:"]
    ++ hub_lines items 0
    ++ [ConsoleLog ("Using Hub ID: " ++ text (field (hd VUndef items) "id"))].

(** An error [e] is thrown during the hubs query (step 1) or, once a hub
    is selected, during the projects query (step 3). *)
Inductive query_fails (bk : Backend) (token : string) (e : JsError) : Prop :=
| hubs_query_fails :
    client_request bk (client_of token) GetHubs = Thrown e ->
    query_fails bk token e
| projects_query_fails (payload hub : JsValue) (others : list JsValue) :
    client_request bk (client_of token) GetHubs = Normal payload ->
    hubs_of payload = Normal (VArr (hub :: others)) ->
    forallb is_hub (hub :: others) = true ->
    client_request bk (client_of token) (GetProjects (field hub "id")) = Thrown e ->
    query_fails bk token e.

(** ** Sample data: the payloads of the specification's examples *)

Definition hub_one : JsValue := VObj [("id", VStr "h1"); ("name", VStr "Hub One")].

Definition hub_two : JsValue := VObj [("id", VStr "h2"); ("name", VStr "Hub Two")].

Definition project_alpha : JsValue := VObj [("id", VStr "p1"); ("name", VStr "Alpha")].

Definition hubs_payload (items : list JsValue) : JsValue :=
  VObj [("hubs", VObj [("pagination", VObj [("cursor", VNull)]);
                       ("results", VArr items)])].

Definition projects_payload (items : list JsValue) : JsValue :=
  VObj [("hub", VObj [("projects", VObj [("pagination", VObj [("cursor", VNull)]);
                                         ("results", VArr items)])])].

(** A mock of the outside: one answer of the token endpoint, one of the hubs
    query, and an answer of the projects query per hub id. *)
Definition mock (token_answer hubs_answer : Completion JsValue)
    (projects_answer : JsValue -> Completion JsValue) : Backend :=
  mkBackend (fun _ _ => token_answer)
    (fun _ op =>
       match op with
       | GetHubs => hubs_answer
       | GetProjects hubId => projects_answer hubId
       end).

Definition token_body (token : string) : JsValue :=
  VObj [("access_token", VStr token); ("token_type", VStr "Bearer");
        ("expires_in", VNum "3599")].

Definition fresh : World := mkWorld None [].

Definition sample_config : Config := mkConfig "client-id" "client-secret".

(** ** Vocabulary of the callback properties *)

(** Only console lines and GraphQL requests: no token request, no write of
    the session slot. *)
Definition gateway_effect (ev : Effect) : bool :=
  match ev with
  | HttpPost _ _ | SessionWrite _ => false
  | _ => true
  end.

Definition gateway_only (evs : list Effect) : bool := forallb gateway_effect evs.

(** A computation whose effects are gateway effects only (so that it leaves
    the session slot as it found it). *)
Definition confined {A : Type} (m : M A) : Prop :=
  forall w, exists c evs, m w = (c, log w evs) /\ gateway_only evs = true.

(** The values assigned to the session slot, in order. *)
Fixpoint session_writes (evs : list Effect) : list JsValue :=
  match evs with
  | [] => []
  | SessionWrite v :: rest => v :: session_writes rest
  | _ :: rest => session_writes rest
  end.

(** The form body of the token request for an authorization code. *)
Definition token_request_body (cfg : Config) (code : string) : string :=
  URLSearchParams_toString (token_params cfg code).

(** The exchange of the code for an access token, as the first statements of
    the callback's [try] block carry it out: build the form, post it, read
    [access_token] off the response data. *)
Definition exchange (cfg : Config) (bk : Backend) (code : JsValue)
  : Completion JsValue :=
  match to_string code with
  | Thrown e => Thrown e
  | Normal codeText =>
      match axios_post bk tokenUrl (token_request_body cfg codeText) with
      | Thrown e => Thrown e
      | Normal tokens => get tokens "access_token"
      end
  end.

(** The call of the token endpoint raises [e]: axios throws it (a network
    error, a status outside 2xx), or the response data is [null] or
    [undefined] and reading [access_token] off it throws. *)
Inductive token_call_raises (bk : Backend) (data : string) (e : JsError) : Prop :=
| post_throws :
    axios_post bk tokenUrl data = Thrown e ->
    token_call_raises bk data e
| body_unreadable (tokens : JsValue) :
    axios_post bk tokenUrl data = Normal tokens ->
    get tokens "access_token" = Thrown e ->
    token_call_raises bk data e.

(** A 2xx answer of the token endpoint without an [access_token]. *)
Definition malformed_token_body : JsValue :=
  VObj [("developerMessage", VStr "unexpected")].

(** The gateway rejects every request (as it does for a bad bearer token). *)
Definition unauthorized : JsError := mkError "ClientError" "Unauthorized".

Definition code_query (code : string) : list (string * JsValue) :=
  [("code", VStr code)].

(** ** Vocabulary of the session properties *)

(** A non-empty bearer token text. *)
Definition is_bearer_token (v : JsValue) : bool :=
  match v with
  | VStr s => negb (String.eqb s "")
  | _ => false
  end.

(** The invariant of the data model: the slot is absent or holds a
    non-empty token text. *)
Definition slot_ok (slot : option JsValue) : bool :=
  match slot with
  | None => true
  | Some v => is_bearer_token v
  end.

(** The tokens a request obtains: one for a callback with a code whose
    exchange completes, none otherwise. *)
Definition tokens_of_request (cfg : Config) (bk : Backend) (req : Request)
  : list JsValue :=
  match req with
  | GetRoot => []
  | GetCallback query =>
      let code := query_param query "code" in
      if truthy code then
        match exchange cfg bk code with
        | Normal token => [token]
        | Thrown _ => []
        end
      else []
  end.

Definition tokens_obtained (cfg : Config) (steps : list (Backend * Request))
  : list JsValue :=
  flat_map (fun step => tokens_of_request cfg (fst step) (snd step)) steps.

(** The slot after a series of assignments. *)
Definition slot_after (slot : option JsValue) (written : list JsValue)
  : option JsValue :=
  fold_left (fun _ v => Some v) written slot.

(** A backend that issues the given token and serves one hub with one
    project. *)
Definition issuing (token : string) : Backend :=
  mock (Normal (token_body token)) (Normal (hubs_payload [hub_one]))
       (fun _ => Normal (projects_payload [project_alpha])).

(** The user goes through the authorization twice in one session. *)
Definition two_logins : list (Backend * Request) :=
  [(issuing "t1", GetRoot);
   (issuing "t1", GetCallback (code_query "c1"));
   (issuing "t2", GetRoot);
   (issuing "t2", GetCallback (code_query "c2"))].

(** ** Reading a query string back *)

(** The reader's side, after the URL Standard: the query of a URL is what
    stands between the first [?] and the fragment; the
    application/x-www-form-urlencoded parser splits it at [&], drops empty
    pieces, splits each piece at its first [=], turns [+] into a space and
    decodes the percent escapes. *)

Fixpoint until_char (stop : ascii) (s : string) : string :=
  match s with
  | EmptyString => EmptyString
  | String c rest => if Ascii.eqb c stop then EmptyString else String c (until_char stop rest)
  end.

Fixpoint after_char (stop : ascii) (s : string) : string :=
  match s with
  | EmptyString => EmptyString
  | String c rest => if Ascii.eqb c stop then rest else after_char stop rest
  end.

Definition url_query (url : string) : string :=
  after_char "?" (until_char "#" url).

Definition hex_value (c : ascii) : option nat :=
  let n := nat_of_ascii c in
  if ((48 <=? n) && (n <=? 57))%nat then Some (n - 48)
  else if ((65 <=? n) && (n <=? 70))%nat then Some (n - 55)
  else if ((97 <=? n) && (n <=? 102))%nat then Some (n - 87)
  else None.

Fixpoint percent_decode (s : string) : string :=
  match s with
  | EmptyString => EmptyString
  | String c rest =>
      if Ascii.eqb c "%" then
        match rest with
        | String h (String l rest') =>
            match hex_value h, hex_value l with
            | Some a, Some b =>
                String (ascii_of_nat (16 * a + b)) (percent_decode rest')
            | _, _ => String c (percent_decode rest)
            end
        | _ => String c (percent_decode rest)
        end
      else String c (percent_decode rest)
  end.

Fixpoint plus_to_space (s : string) : string :=
  match s with
  | EmptyString => EmptyString
  | String c rest =>
      String (if Ascii.eqb c "+" then " "%char else c) (plus_to_space rest)
  end.

Fixpoint split_on (sep : ascii) (s : string) : list string :=
  match s with
  | EmptyString => [EmptyString]
  | String c rest =>
      if Ascii.eqb c sep then EmptyString :: split_on sep rest
      else
        match split_on sep rest with
        | [] => [String c EmptyString]
        | piece :: pieces => String c piece :: pieces
        end
  end.

Definition urldecode (s : string) : string := percent_decode (plus_to_space s).

Definition parse_pair (piece : string) : string * string :=
  (urldecode (until_char "=" piece), urldecode (after_char "=" piece)).

Definition urlencoded_parse (s : string) : list (string * string) :=
  map parse_pair
    (filter (fun piece => negb (String.eqb piece "")) (split_on "&" s)).

(** Every character of [s] satisfies [p]. *)
Fixpoint all_chars (p : ascii -> bool) (s : string) : bool :=
  match s with
  | EmptyString => true
  | String c rest => p c && all_chars p rest
  end.

(** What the serializer can emit for a name or a value. *)
Definition emitted (c : ascii) : bool :=
  is_unreserved c || Ascii.eqb c "+" || Ascii.eqb c "%".

(** [s] holds no occurrence of [c]. *)
Definition free_of (c : ascii) (s : string) : bool :=
  all_chars (fun x => negb (Ascii.eqb x c)) s.

(** What the serializer can emit at all: the above and the two separators. *)
Definition query_char (c : ascii) : bool :=
  emitted c || Ascii.eqb c "=" || Ascii.eqb c "&".

(** One serialized parameter. *)
Definition serialized_pair (p : string * string) : string :=
  urlencode (fst p) ++ "=" ++ urlencode (snd p).

(** ** services/apiService.js *)

(** The REST-backed listing: a client-credentials token, then the hubs of
    the account, reduced to [{ id, name }] records.  The keys read here
    (access_token, data, attributes, id, name) are not defined on a built-in
    prototype either, so [get] is the property read. *)
Module apiService.

(** What axios throws: the error and its [response] property, which is the
    server's answer when the status was outside 2xx and [undefined]
    otherwise (a network error, or an error raised by the program itself). *)
Record Failure : Type := mkFailure
  { error : JsError;
    response : JsValue }.

Inductive Outcome (A : Type) : Type :=
| Done (a : A)
| Raised (f : Failure).
Arguments Done {A} a.
Arguments Raised {A} f.

Inductive Event : Type :=
| Post (url body : string)
| Get (baseURL path authorization : string)
| Log (line : string)
| LogError (label : string) (detail : option JsValue).

(** [process.env.CLIENT_ID] and [process.env.CLIENT_SECRET]; this module
    reads them without a check. *)
Record Env : Type := mkEnv
  { CLIENT_ID : option string;
    CLIENT_SECRET : option string }.

(** The outside: [http_post url body] is the [data] of the answer to
    [axios.post], [http_get baseURL path authorization] that of [api.get]
    on the instance made by [axios.create]. *)
Record Http : Type := mkHttp
  { http_post : string -> string -> Outcome JsValue;
    http_get : string -> string -> string -> Outcome JsValue }.

(** Computations that log events and may raise. *)
Definition Svc (A : Type) : Type := list Event -> Outcome A * list Event.

Definition ret {A} (a : A) : Svc A := fun l => (Done a, l).

Definition raise {A} (f : Failure) : Svc A := fun l => (Raised f, l).

Definition bind {A B} (m : Svc A) (k : A -> Svc B) : Svc B :=
  fun l =>
    match m l with
    | (Done a, l') => k a l'
    | (Raised f, l') => (Raised f, l')
    end.

Definition try_catch {A} (body : Svc A) (handler : Failure -> Svc A) : Svc A :=
  fun l =>
    match body l with
    | (Done a, l') => (Done a, l')
    | (Raised f, l') => handler f l'
    end.

(** A throw of the language itself carries no [response]. *)
Definition lift {A} (c : Completion A) : Svc A :=
  fun l =>
    match c with
    | Normal a => (Done a, l)
    | Thrown e => (Raised (mkFailure e VUndef), l)
    end.

Definition emit (ev : Event) : Svc unit := fun l => (Done tt, (l ++ [ev])%list).

Declare Scope svc_scope.
Delimit Scope svc_scope with svc.
Notation "x <- c ;; k" := (bind c (fun x => k))
  (at level 61, c at next level, right associativity) : svc_scope.
Notation "c ;;; k" := (bind c (fun _ => k))
  (at level 61, right associativity) : svc_scope.
Local Open Scope svc_scope.

(** The text [URLSearchParams] makes of an environment variable. *)
Definition env_text (v : option string) : string :=
  match v with
  | Some s => s
  | None => "undefined"
  end.

Definition token_url : string :=
  "https://developer.api.autodesk.com/authentication/v2/token".

Definition credentials_params (env : Env) : list (string * string) :=
  [("client_id", env_text (CLIENT_ID env));
   ("client_secret", env_text (CLIENT_SECRET env));
   ("grant_type", "client_credentials");
   ("scope", "data:read data:write data:create data:search")].

Definition getAccessToken (env : Env) (http : Http) : Svc JsValue :=
  let data := URLSearchParams_toString (credentials_params env) in
  try_catch
    (emit (Post token_url data) ;;;
     responseData <- (fun l => (http_post http token_url data, l)) ;;
     token <- lift (get responseData "access_token") ;;
     emit (Log "Token de acesso obtido com sucesso.") ;;;
     ret token)
    (fun f =>
       emit (LogError "Falha ao obter o token de acesso." None) ;;;
       detail <- (if truthy (response f)
                  then lift (get (response f) "data")
                  else ret (VStr (message (error f)))) ;;
       emit (LogError "Erro:" (Some detail)) ;;;
       ret VNull).

(** The callback of [response.data.data.map]. *)
Definition hub_summary (hub : JsValue) : Completion JsValue :=
  match get hub "id" with
  | Thrown e => Thrown e
  | Normal id =>
      match get hub "attributes" with
      | Thrown e => Thrown e
      | Normal attributes =>
          match get attributes "name" with
          | Thrown e => Thrown e
          | Normal nm => Normal (VObj [("id", id); ("name", nm)])
          end
      end
  end.

Fixpoint map_items (cb : JsValue -> Completion JsValue) (items : list JsValue)
  : Completion (list JsValue) :=
  match items with
  | [] => Normal []
  | x :: rest =>
      match cb x with
      | Thrown e => Thrown e
      | Normal y =>
          match map_items cb rest with
          | Thrown e => Thrown e
          | Normal ys => Normal (y :: ys)
          end
      end
  end.

(** [v.map(cb)]: only an array has a callable [map]. *)
Definition array_map (cb : JsValue -> Completion JsValue) (v : JsValue)
  : Completion JsValue :=
  match v with
  | VArr items =>
      match map_items cb items with
      | Thrown e => Thrown e
      | Normal ys => Normal (VArr ys)
      end
  | VUndef | VNull =>
      Thrown (TypeError ("Cannot read properties of " ++ type_name v
                           ++ " (reading 'map')"))
  | _ => Thrown (TypeError "response.data.data.map is not a function")
  end.

Definition base_url : string := "https://developer.api.autodesk.com/".

Definition getProjects (env : Env) (http : Http) : Svc JsValue :=
  try_catch
    (token <- getAccessToken env http ;;
     (if negb (truthy token)
      then raise (mkFailure
                    (mkError "Error" "Não foi possível obter o token de acesso.")
                    VUndef)
      else ret tt) ;;;
     tokenText <- lift (to_string token) ;;
     let authorization := "Bearer " ++ tokenText in
     emit (Get base_url "project/v1/hubs" authorization) ;;;
     responseData <- (fun l => (http_get http base_url "project/v1/hubs" authorization, l)) ;;
     hubs <- lift (get responseData "data") ;;
     projects <- lift (array_map hub_summary hubs) ;;
     ret projects)
    (fun f =>
       emit (LogError "Erro ao obter projetos:" (Some (VStr (message (error f))))) ;;;
       ret (VArr [])).

(** *** Vocabulary of the properties *)

(** The HTTP requests among the events, in order. *)
Fixpoint requests (evs : list Event) : list Event :=
  match evs with
  | [] => []
  | Post url body :: rest => Post url body :: requests rest
  | Get b p a :: rest => Get b p a :: requests rest
  | _ :: rest => requests rest
  end.

(** What the failure handler of [getAccessToken] prints after "Erro:". *)
Definition failure_detail (f : Failure) : JsValue :=
  if truthy (response f) then field (response f) "data"
  else VStr (message (error f)).

(** A hub entry off which [id] and [attributes.name] can be read. *)
Definition has_attributes (hub : JsValue) : bool :=
  negb (nullish hub) && negb (nullish (field hub "attributes")).

Definition summary (hub : JsValue) : JsValue :=
  VObj [("id", field hub "id"); ("name", field (field hub "attributes") "name")].

(** The line the failure handler of [getProjects] prints. *)
Definition listing_failed (msg : string) : Event :=
  LogError "Erro ao obter projetos:" (Some (VStr msg)).

(** A mock of the outside: one answer per endpoint. *)
Definition mock (token_answer hubs_answer : Outcome JsValue) : Http :=
  mkHttp (fun _ _ => token_answer) (fun _ _ _ => hubs_answer).

Definition sample_env : Env := mkEnv (Some "client-id") (Some "client-secret").

Definition rest_hub (id nm : string) : JsValue :=
  VObj [("type", VStr "hubs"); ("id", VStr id);
        ("attributes", VObj [("name", VStr nm); ("region", VStr "US")])].

Definition rest_hubs (items : list JsValue) : JsValue :=
  VObj [("jsonapi", VObj [("version", VStr "1.0")]); ("data", VArr items)].

End apiService.

(** ** graphql/queries/projectQueries.js *)

(** The resolver of the [projects] field of the root query. *)
Module projectQueries.

Definition resolve (env : apiService.Env) (http : apiService.Http)
  : apiService.Svc JsValue :=
  apiService.getProjects env http.

End projectQueries.

(** ** Further vocabulary for app.ts *)

(** The GraphQL requests among a list of effects, with the client that sent
    each one. *)
Fixpoint graphql_requests (evs : list Effect) : list (GraphQLClient * Operation) :=
  match evs with
  | [] => []
  | GraphQLRequest client op :: rest => (client, op) :: graphql_requests rest
  | _ :: rest => graphql_requests rest
  end.

(** The requests to the token endpoint, as (url, form body). *)
Fixpoint token_requests (evs : list Effect) : list (string * string) :=
  match evs with
  | [] => []
  | HttpPost url data :: rest => (url, data) :: token_requests rest
  | _ :: rest => token_requests rest
  end.

(** The console lines printed with [console.log]. *)
Fixpoint console_lines (evs : list Effect) : list string :=
  match evs with
  | [] => []
  | ConsoleLog line :: rest => line :: console_lines rest
  | _ :: rest => console_lines rest
  end.

(** The status the callback answers with, read off its two decisions. *)
Definition callback_status (cfg : Config) (bk : Backend)
    (query : list (string * JsValue)) : nat :=
  let code := query_param query "code" in
  if negb (truthy code) then 400
  else
    match exchange cfg bk code with
    | Thrown _ => 500
    | Normal _ => 200
    end.

(** The characters of a redirect target: what the serializer emits, and the
    [:], [/] and [?] of the authorize URL. *)
Definition url_char (c : ascii) : bool :=
  query_char c || Ascii.eqb c ":" || Ascii.eqb c "/" || Ascii.eqb c "?".

(** The line the listing prints for the hub at position [n], counted from 1. *)
Definition hub_line (n : nat) (hub : JsValue) : string :=
  nat_to_string n ++ ". Hub ID: " ++ text (field hub "id")
    ++ ", Name: " ++ text (field hub "name").

(** The lines of a listing whose first hub has number [first]. *)
Fixpoint numbered_lines (first : nat) (items : list JsValue) : list string :=
  match items with
  | [] => []
  | hub :: rest => hub_line first hub :: numbered_lines (S first) rest
  end.

(** ** Answers that list nothing *)

(** The member [k] of an answer, read off the value itself: the own property
    of an object, [undefined] where there is no such property or no object
    to hold one. *)
Definition member (v : JsValue) (k : string) : JsValue :=
  match v with
  | VObj fields =>
      match own_property k fields with
      | Some x => x
      | None => VUndef
      end
  | _ => VUndef
  end.

(** The hubs answer lists no hub: it has no [hubs] member (none at all, or
    one that is [null] or [undefined]), or that member has no [results], or
    [results] is the empty array.  An answer that is itself [null] or
    [undefined] has no member and falls under the first case. *)
Definition no_hubs_listed (payload : JsValue) : bool :=
  let hubs := member payload "hubs" in
  nullish hubs || no_items (member hubs "results").

(** The projects answer lists no project: no [hub], or no [projects] in it,
    or no [results] in that, or an empty [results]. *)
Definition no_projects_listed (payload : JsValue) : bool :=
  let hub := member payload "hub" in
  nullish hub
  || (let projects := member hub "projects" in
      nullish projects || no_items (member projects "results")).

(** The catch-all value for a TypeError raised by reading [k] off an answer
    that is [null] or [undefined]. *)
Definition unreadable_answer (payload : JsValue) (k : string) : JsValue :=
  VObj [("error", VStr "An error occurred during the GraphQL query");
        ("details", VStr ("Cannot read properties of " ++ type_name payload
                            ++ " (reading '" ++ k ++ "')"))].

(** ** The hub listing *)

Lemma log_log (w : World) (a b : list Effect) : log (log w a) b = log w (a ++ b).
Proof. unfold log; cbn. now rewrite app_assoc. Qed.

Lemma log_nil (w : World) : log w [] = w.
Proof. destruct w; unfold log; cbn. now rewrite app_nil_r. Qed.

Lemma print_hub_is_hub (hub : JsValue) (index : nat) (w : World) :
  is_hub hub = true ->
  print_hub hub index w = (Normal tt, log w (hub_lines [hub] index)).
Proof.
  destruct hub as [| | | | |items|fields]; try discriminate.
  unfold is_hub, hub_lines, field, text, print_hub, bind, lift. cbn [get].
  destruct (own_property "id" fields) as [[]|]; try discriminate;
    destruct (own_property "name" fields) as [[]|]; try discriminate.
  intros _. reflexivity.
Qed.

Lemma forEach_hubs (items : list JsValue) :
  forallb is_hub items = true ->
  forall (index : nat) (w : World),
    forEach print_hub items index w = (Normal tt, log w (hub_lines items index)).
Proof.
  induction items as [|hub rest IH]; intros Hall index w.
  - cbn. now rewrite log_nil.
  - cbn [forallb] in Hall. apply andb_prop in Hall as [Hhub Hrest].
    cbn [forEach]. unfold bind at 1.
    rewrite (print_hub_is_hub _ _ _ Hhub), (IH Hrest), log_log.
    reflexivity.
Qed.

(** ** The orchestrator, case by case *)

Lemma get_field (v : JsValue) (k : string) :
  nullish v = false -> get v k = Normal (field v k).
Proof.
  unfold field. destruct v; cbn; try discriminate; try reflexivity.
  now destruct (own_property k fields).
Qed.

Lemma is_hub_not_nullish (v : JsValue) : is_hub v = true -> nullish v = false.
Proof. now destruct v. Qed.

Lemma is_hub_id_text (v : JsValue) :
  is_hub v = true -> to_string (field v "id") = Normal (text (field v "id")).
Proof.
  destruct v; try discriminate. unfold is_hub, text.
  destruct (field (VObj fields) "id"); try discriminate. reflexivity.
Qed.

(** What the orchestrator does once a list of hubs came back: it asks for
    the projects of the first one and reduces the answer. *)
Lemma perform_hubs_selected (bk : Backend) (token : string) (w : World)
    (payload hub : JsValue) (others : list JsValue) :
  client_request bk (client_of token) GetHubs = Normal payload ->
  hubs_of payload = Normal (VArr (hub :: others)) ->
  forallb is_hub (hub :: others) = true ->
  let hubId := field hub "id" in
  let ask := GraphQLRequest (client_of token) (GetProjects hubId) in
  let w1 := log w (selection_effects token (hub :: others) ++ [ask]) in
  let failed e :=
    (Normal (error_details "An error occurred during the GraphQL query" (message e)),
     log w1 [ConsoleError "Error during GraphQL query:" e]) in
  performGraphQLQuery bk (VStr token) w =
    match client_request bk (client_of token) (GetProjects hubId) with
    | Thrown e => failed e
    | Normal projectsResult =>
        match projects_of projectsResult with
        | Thrown e => failed e
        | Normal projects =>
            if negb (truthy projects) || length_is_zero projects then
              (Normal (error_object ("No projects found in hub " ++ text hubId ++ ".")), w1)
            else (Normal projectsResult, w1)
        end
    end.
Proof.
  intros Hreq Hhubs Hall hubId ask w1 failed. subst hubId ask w1 failed.
  pose proof Hall as Hhub. cbn [forallb] in Hhub.
  apply andb_prop in Hhub as [Hhub _].
  unfold performGraphQLQuery, try_catch.
  unfold bind at 1. unfold lift at 1. cbn [createGraphQLClient to_string].
  fold (client_of token).
  unfold bind at 1. unfold getHubs, request. unfold bind at 1. unfold emit at 1.
  unfold lift at 1. rewrite Hreq.
  unfold hubs_of in Hhubs.
  unfold bind at 1. unfold lift at 1.
  destruct (get payload "hubs") as [hf|e]; [|discriminate].
  unfold bind at 1. unfold lift at 1. rewrite Hhubs.
  cbn [truthy length_is_zero negb orb].
  unfold bind at 1. unfold console_log at 1. unfold emit at 1.
  unfold bind at 1. rewrite (forEach_hubs _ Hall).
  unfold bind at 1. unfold lift at 1. cbn [hd].
  rewrite (get_field _ _ (is_hub_not_nullish _ Hhub)).
  unfold bind at 1. unfold lift at 1. rewrite (is_hub_id_text _ Hhub).
  unfold bind at 1. unfold console_log at 1. unfold emit at 1.
  unfold bind at 1. unfold getProjects, request. unfold bind at 1.
  unfold emit at 1. unfold lift at 1.
  rewrite !log_log. unfold selection_effects. cbn [hd].
  rewrite <- !app_assoc. cbn [app].
  destruct (client_request bk (client_of token) (GetProjects (field hub "id")))
    as [projectsResult|e]; [|reflexivity].
  unfold projects_of. unfold bind at 1. unfold lift at 1.
  destruct (get projectsResult "hub") as [hub_field|e]; [|reflexivity].
  unfold bind at 1. unfold lift at 1.
  destruct (opt_get hub_field "projects") as [projects_field|e]; [|reflexivity].
  unfold bind at 1. unfold lift at 1.
  destruct (opt_get projects_field "results") as [projects|e]; [|reflexivity].
  destruct (negb (truthy projects) || length_is_zero projects); reflexivity.
Qed.

Lemma graphql_ops_app (a b : list Effect) :
  graphql_ops (a ++ b) = (graphql_ops a ++ graphql_ops b)%list.
Proof.
  induction a as [|ev a IH]; [reflexivity|].
  destruct ev; cbn; now rewrite IH.
Qed.

Lemma project_queries_app (a b : list Effect) :
  project_queries (a ++ b) = (project_queries a ++ project_queries b)%list.
Proof.
  induction a as [|ev a IH]; [reflexivity|].
  destruct ev as [| c [|hubId] | | |]; cbn; now rewrite IH.
Qed.

Lemma graphql_ops_hub_lines (items : list JsValue) :
  forall index, graphql_ops (hub_lines items index) = [].
Proof. induction items as [|hub rest IH]; intros index; cbn; auto. Qed.

Lemma project_queries_hub_lines (items : list JsValue) :
  forall index, project_queries (hub_lines items index) = [].
Proof. induction items as [|hub rest IH]; intros index; cbn; auto. Qed.

Lemma graphql_ops_selection (token : string) (items : list JsValue) :
  graphql_ops (selection_effects token items) = [GetHubs].
Proof.
  unfold selection_effects.
  now rewrite !graphql_ops_app, graphql_ops_hub_lines.
Qed.

Lemma project_queries_selection (token : string) (items : list JsValue) :
  project_queries (selection_effects token items) = [].
Proof.
  unfold selection_effects.
  now rewrite !project_queries_app, project_queries_hub_lines.
Qed.

(** The hubs query threw. *)
Lemma perform_hubs_thrown (bk : Backend) (token : string) (w : World)
    (e : JsError) :
  client_request bk (client_of token) GetHubs = Thrown e ->
  performGraphQLQuery bk (VStr token) w =
    (Normal (error_details "An error occurred during the GraphQL query" (message e)),
     log w [GraphQLRequest (client_of token) GetHubs;
            ConsoleError "Error during GraphQL query:" e]).
Proof.
  intros Hreq. unfold performGraphQLQuery, try_catch.
  unfold bind at 1. unfold lift at 1. cbn [createGraphQLClient to_string].
  fold (client_of token).
  unfold bind at 1. unfold getHubs, request. unfold bind at 1. unfold emit at 1.
  unfold lift at 1. rewrite Hreq.
  unfold bind, console_error, emit, ret. now rewrite log_log.
Qed.

(** The hubs query answered, without a list of hubs or with an empty one. *)
Lemma perform_no_hubs (bk : Backend) (token : string) (w : World)
    (payload hubs : JsValue) :
  client_request bk (client_of token) GetHubs = Normal payload ->
  hubs_of payload = Normal hubs ->
  no_items hubs = true ->
  performGraphQLQuery bk (VStr token) w =
    (Normal (error_object "No hubs found or access denied."),
     log w [GraphQLRequest (client_of token) GetHubs]).
Proof.
  intros Hreq Hhubs Hnone. unfold performGraphQLQuery, try_catch.
  unfold bind at 1. unfold lift at 1. cbn [createGraphQLClient to_string].
  fold (client_of token).
  unfold bind at 1. unfold getHubs, request. unfold bind at 1. unfold emit at 1.
  unfold lift at 1. rewrite Hreq.
  unfold hubs_of in Hhubs.
  unfold bind at 1. unfold lift at 1.
  destruct (get payload "hubs") as [hf|e]; [|discriminate].
  unfold bind at 1. unfold lift at 1. rewrite Hhubs.
  destruct hubs as [| | | | |[|x l]|]; try discriminate; reflexivity.
Qed.

(** ** The orchestrator: the claims *)

(** C1. Whenever the hubs query returns a list with at least one hub, the
    orchestrator sends the projects query exactly once, with the id of the
    first hub of the list, whatever the number of hubs: the GraphQL
    operations of the run are the hubs query followed by the projects query
    for that id, and no other hub id is ever queried. *)
Theorem first_hub_is_the_one_queried (bk : Backend) (token : string)
    (w : World) (payload hub : JsValue) (others : list JsValue) :
  client_request bk (client_of token) GetHubs = Normal payload ->
  hubs_of payload = Normal (VArr (hub :: others)) ->
  forallb is_hub (hub :: others) = true ->
  exists result evs,
    performGraphQLQuery bk (VStr token) w = (Normal result, log w evs)
    /\ graphql_ops evs = [GetHubs; GetProjects (field hub "id")]
    /\ project_queries evs = [field hub "id"].
Proof.
  intros Hreq Hhubs Hall.
  rewrite (perform_hubs_selected bk token w payload hub others Hreq Hhubs Hall).
  cbv zeta.
  assert (Hops : forall tail,
             graphql_ops tail = [] -> project_queries tail = [] ->
             graphql_ops ((selection_effects token (hub :: others)
                             ++ [GraphQLRequest (client_of token)
                                   (GetProjects (field hub "id"))]) ++ tail)
               = [GetHubs; GetProjects (field hub "id")]
             /\ project_queries ((selection_effects token (hub :: others)
                             ++ [GraphQLRequest (client_of token)
                                   (GetProjects (field hub "id"))]) ++ tail)
               = [field hub "id"]).
  { intros tail Hg Hp.
    rewrite !graphql_ops_app, !project_queries_app, graphql_ops_selection,
      project_queries_selection, Hg, Hp. split; reflexivity. }
  destruct (client_request bk (client_of token) (GetProjects (field hub "id")))
    as [projectsResult|e].
  - destruct (projects_of projectsResult) as [projects|e].
    + destruct (negb (truthy projects) || length_is_zero projects);
        eexists; eexists; (split; [reflexivity|]);
        rewrite <- (app_nil_r (_ ++ [_])); now apply Hops.
    + rewrite log_log. eexists; eexists; (split; [reflexivity|]).
      now apply Hops.
  - rewrite log_log. eexists; eexists; (split; [reflexivity|]).
    now apply Hops.
Qed.

Lemma first_hub_is_the_one_queried_witness :
  exists result evs,
    performGraphQLQuery
      (mock (Normal (token_body "tok"))
            (Normal (hubs_payload [hub_one; hub_two]))
            (fun _ => Normal (projects_payload [project_alpha])))
      (VStr "tok") fresh = (Normal result, log fresh evs)
    /\ graphql_ops evs = [GetHubs; GetProjects (VStr "h1")]
    /\ project_queries evs = [VStr "h1"].
Proof.
  apply (first_hub_is_the_one_queried _ "tok" fresh
           (hubs_payload [hub_one; hub_two]) hub_one [hub_two]);
    reflexivity.
Defined.

Lemma get_member (v : JsValue) (k : string) :
  nullish v = false -> get v k = Normal (member v k).
Proof.
  destruct v; cbn; try discriminate; try reflexivity.
  now destruct (own_property k fields).
Qed.

(** From the members of an answer to what the optional chains read. *)
Lemma no_hubs_listed_hubs_of (payload : JsValue) :
  nullish payload = false ->
  no_hubs_listed payload = true ->
  exists hubs, hubs_of payload = Normal hubs /\ no_items hubs = true.
Proof.
  intros Hpayload Hnone. unfold no_hubs_listed in Hnone. cbv zeta in Hnone.
  unfold hubs_of. rewrite (get_member _ _ Hpayload). unfold opt_get.
  destruct (nullish (member payload "hubs")) eqn:Hhubs.
  - now exists VUndef.
  - rewrite (get_member _ _ Hhubs). cbn [orb] in Hnone.
    now exists (member (member payload "hubs") "results").
Qed.

Lemma no_projects_listed_projects_of (payload : JsValue) :
  nullish payload = false ->
  no_projects_listed payload = true ->
  exists projects, projects_of payload = Normal projects /\ no_items projects = true.
Proof.
  intros Hpayload Hnone. unfold no_projects_listed in Hnone. cbv zeta in Hnone.
  unfold projects_of. rewrite (get_member _ _ Hpayload). unfold opt_get.
  destruct (nullish (member payload "hub")) eqn:Hhub.
  - now exists VUndef.
  - rewrite (get_member _ _ Hhub). cbn [orb] in Hnone.
    destruct (nullish (member (member payload "hub") "projects")) eqn:Hprojects.
    + now exists VUndef.
    + rewrite (get_member _ _ Hprojects). cbn [orb] in Hnone.
      now exists (member (member (member payload "hub") "projects") "results").
Qed.

(** The hubs query answered [null] or [undefined]. *)
Lemma perform_hubs_unreadable (bk : Backend) (token : string) (w : World)
    (payload : JsValue) :
  client_request bk (client_of token) GetHubs = Normal payload ->
  nullish payload = true ->
  performGraphQLQuery bk (VStr token) w =
    (Normal (unreadable_answer payload "hubs"),
     log w [GraphQLRequest (client_of token) GetHubs;
            ConsoleError "Error during GraphQL query:"
              (TypeError ("Cannot read properties of " ++ type_name payload
                            ++ " (reading 'hubs')"))]).
Proof.
  intros Hreq Hnull. unfold performGraphQLQuery, try_catch.
  unfold bind at 1. unfold lift at 1. cbn [createGraphQLClient to_string].
  fold (client_of token).
  unfold bind at 1. unfold getHubs, request. unfold bind at 1. unfold emit at 1.
  unfold lift at 1. rewrite Hreq.
  unfold bind at 1. unfold lift at 1.
  destruct payload; try discriminate; cbn [get type_name];
    unfold bind, console_error, emit, ret; rewrite ?log_log; reflexivity.
Qed.

(** C2. Whenever the hubs query answers and the answer lists no hub (it has
    no [hubs], or a [null] one, or [hubs] has no [results], or a [null] or
    empty one), the orchestrator returns (it does not throw) the value
    [{ error: "No hubs found or access denied." }], the hubs query is the
    only effect of the run, and the projects query is never sent.  The one
    answer without a hubs list that is treated otherwise is the answer that
    is itself [null] or [undefined]: the orchestrator still returns normally
    and still sends no projects query, but the value is the catch-all one
    with the message of the TypeError, which is also printed. *)
Theorem no_hubs_is_a_normal_result (bk : Backend) (token : string)
    (w : World) (payload : JsValue) :
  client_request bk (client_of token) GetHubs = Normal payload ->
  no_hubs_listed payload = true ->
  exists evs,
    performGraphQLQuery bk (VStr token) w
      = (Normal (if nullish payload
                 then VObj [("error", VStr "An error occurred during the GraphQL query");
                            ("details", VStr ("Cannot read properties of "
                                                ++ type_name payload
                                                ++ " (reading 'hubs')"))]
                 else VObj [("error", VStr "No hubs found or access denied.")]),
         log w evs)
    /\ evs = GraphQLRequest (client_of token) GetHubs
             :: (if nullish payload
                 then [ConsoleError "Error during GraphQL query:"
                         (TypeError ("Cannot read properties of "
                                       ++ type_name payload
                                       ++ " (reading 'hubs')"))]
                 else [])
    /\ project_queries evs = [].
Proof.
  intros Hreq Hnone.
  destruct (nullish payload) eqn:Hnull.
  - rewrite (perform_hubs_unreadable bk token w payload Hreq Hnull).
    eexists. repeat split.
  - destruct (no_hubs_listed_hubs_of payload Hnull Hnone) as (hubs & Hhubs & Hitems).
    rewrite (perform_no_hubs bk token w payload hubs Hreq Hhubs Hitems).
    eexists. repeat split.
Qed.

Lemma no_hubs_is_a_normal_result_witness :
  exists evs,
    performGraphQLQuery
      (mock (Normal (token_body "tok")) (Normal (VObj [("hubs", VNull)]))
            (fun _ => Normal (projects_payload [project_alpha])))
      (VStr "tok") fresh
      = (Normal (VObj [("error", VStr "No hubs found or access denied.")]),
         log fresh evs)
    /\ evs = [GraphQLRequest (client_of "tok") GetHubs]
    /\ project_queries evs = [].
Proof.
  apply (no_hubs_is_a_normal_result _ "tok" fresh (VObj [("hubs", VNull)]));
    reflexivity.
Defined.

(** The shapes of an answer without hubs, run one by one: no [hubs] at all,
    [hubs] without [results], [results: null], [results: []] all give the
    no-hubs value; the answer [null] gives the catch-all one. *)
Example answers_without_hubs :
  let run payload :=
    fst (performGraphQLQuery
           (mock (Normal (token_body "tok")) (Normal payload)
                 (fun _ => Normal (projects_payload [project_alpha])))
           (VStr "tok") fresh) in
  let no_hubs := Normal (VObj [("error", VStr "No hubs found or access denied.")]) in
  run (VObj []) = no_hubs
  /\ run (VObj [("hubs", VObj [])]) = no_hubs
  /\ run (VObj [("hubs", VObj [("results", VNull)])]) = no_hubs
  /\ run (hubs_payload []) = no_hubs
  /\ run VNull
     = Normal (VObj [("error", VStr "An error occurred during the GraphQL query");
                     ("details", VStr "Cannot read properties of null (reading 'hubs')")]).
Proof. repeat split. Qed.

(** C5. Whenever a hub is selected and the projects query answers with an
    answer that lists no project (it has no [hub], or a [null] one, or the
    hub has no [projects], or these have no [results], or a [null] or empty
    one), the orchestrator returns
    [{ error: "No projects found in hub <id>." }] where <id> is the id of the
    selected (first) hub.  The one answer without a projects list that is
    treated otherwise is the answer that is itself [null] or [undefined]: the
    value is then the catch-all one with the message of the TypeError. *)
Theorem empty_projects_names_the_hub (bk : Backend) (token : string)
    (w : World) (payload hub : JsValue) (others : list JsValue)
    (hubId : string) (projectsResult : JsValue) :
  client_request bk (client_of token) GetHubs = Normal payload ->
  hubs_of payload = Normal (VArr (hub :: others)) ->
  forallb is_hub (hub :: others) = true ->
  field hub "id" = VStr hubId ->
  client_request bk (client_of token) (GetProjects (VStr hubId))
    = Normal projectsResult ->
  no_projects_listed projectsResult = true ->
  fst (performGraphQLQuery bk (VStr token) w)
    = Normal (if nullish projectsResult
              then VObj [("error", VStr "An error occurred during the GraphQL query");
                         ("details", VStr ("Cannot read properties of "
                                             ++ type_name projectsResult
                                             ++ " (reading 'hub')"))]
              else VObj [("error",
                          VStr ("No projects found in hub " ++ hubId ++ "."))]).
Proof.
  intros Hreq Hhubs Hall Hid Hproj Hnone.
  rewrite (perform_hubs_selected bk token w payload hub others Hreq Hhubs Hall).
  cbv zeta. rewrite Hid, Hproj.
  destruct (nullish projectsResult) eqn:Hnull.
  - destruct projectsResult; try discriminate; reflexivity.
  - destruct (no_projects_listed_projects_of projectsResult Hnull Hnone)
      as (projects & -> & Hitems).
    destruct projects as [| | | | |[|x l]|]; try discriminate; reflexivity.
Qed.

Lemma empty_projects_names_the_hub_witness :
  fst (performGraphQLQuery
         (mock (Normal (token_body "tok")) (Normal (hubs_payload [hub_one]))
               (fun _ => Normal (VObj [("hub", VNull)])))
         (VStr "tok") fresh)
    = Normal (VObj [("error", VStr "No projects found in hub h1.")]).
Proof.
  apply (empty_projects_names_the_hub _ "tok" fresh (hubs_payload [hub_one])
           hub_one [] "h1" (VObj [("hub", VNull)]));
    reflexivity.
Defined.

(** The shapes of an answer without projects, run one by one. *)
Example answers_without_projects :
  let run answer :=
    fst (performGraphQLQuery
           (mock (Normal (token_body "tok")) (Normal (hubs_payload [hub_one]))
                 (fun _ => Normal answer))
           (VStr "tok") fresh) in
  let none := Normal (VObj [("error", VStr "No projects found in hub h1.")]) in
  run (VObj []) = none
  /\ run (VObj [("hub", VObj [])]) = none
  /\ run (VObj [("hub", VObj [("projects", VNull)])]) = none
  /\ run (VObj [("hub", VObj [("projects", VObj [])])]) = none
  /\ run (VObj [("hub", VObj [("projects", VObj [("results", VNull)])])]) = none
  /\ run (projects_payload []) = none
  /\ run VNull
     = Normal (VObj [("error", VStr "An error occurred during the GraphQL query");
                     ("details", VStr "Cannot read properties of null (reading 'hub')")]).
Proof. repeat split. Qed.

(** C6. Whenever a hub is selected and the projects query answers with a
    non-empty list of projects, the orchestrator returns the payload of the
    projects query itself, unchanged. *)
Theorem projects_payload_is_returned_verbatim (bk : Backend) (token : string)
    (w : World) (payload hub : JsValue) (others : list JsValue)
    (projectsResult project : JsValue) (more : list JsValue) :
  client_request bk (client_of token) GetHubs = Normal payload ->
  hubs_of payload = Normal (VArr (hub :: others)) ->
  forallb is_hub (hub :: others) = true ->
  client_request bk (client_of token) (GetProjects (field hub "id"))
    = Normal projectsResult ->
  projects_of projectsResult = Normal (VArr (project :: more)) ->
  fst (performGraphQLQuery bk (VStr token) w) = Normal projectsResult.
Proof.
  intros Hreq Hhubs Hall Hproj Hlist.
  rewrite (perform_hubs_selected bk token w payload hub others Hreq Hhubs Hall).
  cbv zeta. now rewrite Hproj, Hlist.
Qed.

Lemma projects_payload_is_returned_verbatim_witness :
  fst (performGraphQLQuery
         (mock (Normal (token_body "tok")) (Normal (hubs_payload [hub_one]))
               (fun _ => Normal (projects_payload [project_alpha])))
         (VStr "tok") fresh)
    = Normal (projects_payload [project_alpha]).
Proof.
  apply (projects_payload_is_returned_verbatim _ "tok" fresh
           (hubs_payload [hub_one]) hub_one []
           (projects_payload [project_alpha]) project_alpha []);
    reflexivity.
Defined.

(** ** Effects of the orchestrator stay within the gateway *)

Lemma gateway_only_app (a b : list Effect) :
  gateway_only a = true -> gateway_only b = true -> gateway_only (a ++ b) = true.
Proof. unfold gateway_only. intros Ha Hb. now rewrite forallb_app, Ha, Hb. Qed.

Lemma confined_ret {A} (a : A) : confined (ret a).
Proof. intros w. exists (Normal a), []. now rewrite log_nil. Qed.

Lemma confined_throw {A} (e : JsError) : confined (@throw A e).
Proof. intros w. exists (Thrown e), []. now rewrite log_nil. Qed.

Lemma confined_lift {A} (c : Completion A) : confined (lift c).
Proof. intros w. exists c, []. now rewrite log_nil. Qed.

Lemma confined_emit (ev : Effect) : gateway_effect ev = true -> confined (emit ev).
Proof.
  intros Hev w. exists (Normal tt), [ev]. split; [reflexivity|].
  cbn. now rewrite Hev.
Qed.

Lemma confined_bind {A B} (m : M A) (k : A -> M B) :
  confined m -> (forall a, confined (k a)) -> confined (bind m k).
Proof.
  intros Hm Hk w. unfold bind.
  destruct (Hm w) as (c & evs & -> & Hevs).
  destruct c as [a|e].
  - destruct (Hk a (log w evs)) as (c' & evs' & -> & Hevs').
    exists c', (evs ++ evs')%list. rewrite log_log.
    split; [reflexivity|]. now apply gateway_only_app.
  - now exists (Thrown e), evs.
Qed.

Lemma confined_try_catch {A} (body : M A) (handler : JsError -> M A) :
  confined body -> (forall e, confined (handler e)) ->
  confined (try_catch body handler).
Proof.
  intros Hm Hk w. unfold try_catch.
  destruct (Hm w) as (c & evs & -> & Hevs).
  destruct c as [a|e].
  - now exists (Normal a), evs.
  - destruct (Hk e (log w evs)) as (c' & evs' & -> & Hevs').
    exists c', (evs ++ evs')%list. rewrite log_log.
    split; [reflexivity|]. now apply gateway_only_app.
Qed.

Lemma confined_forEach (cb : JsValue -> nat -> M unit) (items : list JsValue) :
  (forall x i, confined (cb x i)) -> forall index, confined (forEach cb items index).
Proof.
  intros Hcb. induction items as [|x rest IH]; intros index; cbn [forEach].
  - apply confined_ret.
  - apply confined_bind; [apply Hcb | intros _; apply IH].
Qed.

Ltac confine :=
  repeat first
    [ apply confined_ret | apply confined_throw | apply confined_lift
    | apply confined_emit; reflexivity
    | apply confined_bind; [|intro] ].

Lemma confined_print_hub (hub : JsValue) (index : nat) : confined (print_hub hub index).
Proof. unfold print_hub, console_log. confine. Qed.

Lemma confined_request (bk : Backend) (client : GraphQLClient) (op : Operation) :
  confined (request bk client op).
Proof. unfold request. confine. Qed.

(** The orchestrator never throws, whatever the token and the backend, and
    neither posts to the token endpoint nor writes the session slot. *)
Lemma perform_returns (bk : Backend) (token : JsValue) (w : World) :
  exists result evs,
    performGraphQLQuery bk token w = (Normal result, log w evs)
    /\ gateway_only evs = true.
Proof.
  unfold performGraphQLQuery, try_catch.
  match goal with
  | |- context [match ?body w with _ => _ end] =>
      assert (Hbody : confined body)
  end.
  { apply confined_bind; [apply confined_lift | intros client].
    apply confined_bind; [apply confined_request | intros hubsResult].
    apply confined_bind; [apply confined_lift | intros hubs_field].
    apply confined_bind; [apply confined_lift | intros hubs].
    destruct (negb (truthy hubs) || length_is_zero hubs); [apply confined_ret|].
    apply confined_bind; [apply confined_emit; reflexivity | intros _].
    destruct hubs; try apply confined_throw.
    apply confined_bind;
      [apply confined_forEach; intros; apply confined_print_hub | intros _].
    apply confined_bind; [apply confined_lift | intros hubId].
    apply confined_bind; [apply confined_lift | intros hubIdText].
    apply confined_bind; [apply confined_emit; reflexivity | intros _].
    apply confined_bind; [apply confined_request | intros projectsResult].
    apply confined_bind; [apply confined_lift | intros hub_field].
    apply confined_bind; [apply confined_lift | intros projects_field].
    apply confined_bind; [apply confined_lift | intros projects].
    destruct (negb (truthy projects) || length_is_zero projects);
      [|apply confined_ret].
    apply confined_bind; [apply confined_lift | intros msgId].
    apply confined_ret. }
  destruct (Hbody w) as (c & evs & -> & Hevs).
  destruct c as [result|e].
  - now exists result, evs.
  - unfold bind, console_error, emit, ret. rewrite log_log.
    eexists; eexists; split; [reflexivity|].
    apply gateway_only_app; [assumption | reflexivity].
Qed.

(** ** The callback, case by case *)

Lemma callback_without_code (cfg : Config) (bk : Backend)
    (query : list (string * JsValue)) (w : World) :
  truthy (query_param query "code") = false ->
  callback_handler cfg bk query w
    = (Normal (json 400 (error_object "Authorization code not found")), w).
Proof. intros Hcode. unfold callback_handler. now rewrite Hcode. Qed.

(** The world in which the orchestrator starts: the token request is sent
    and the token is in the session. *)
Lemma callback_exchanged (cfg : Config) (bk : Backend)
    (query : list (string * JsValue)) (w : World)
    (codeText : string) (tokens token : JsValue) :
  truthy (query_param query "code") = true ->
  to_string (query_param query "code") = Normal codeText ->
  axios_post bk tokenUrl (token_request_body cfg codeText) = Normal tokens ->
  get tokens "access_token" = Normal token ->
  let w1 := mkWorld (Some token)
              (effects w ++ [HttpPost tokenUrl (token_request_body cfg codeText);
                             SessionWrite token]) in
  exists result evs,
    performGraphQLQuery bk token w1 = (Normal result, log w1 evs)
    /\ gateway_only evs = true
    /\ callback_handler cfg bk query w = (Normal (json 200 result), log w1 evs).
Proof.
  intros Hcode Htext Hpost Htoken w1.
  destruct (perform_returns bk token w1) as (result & evs & Hrun & Hevs).
  exists result, evs. split; [assumption|]. split; [assumption|].
  unfold callback_handler. rewrite Hcode. cbn [negb]. unfold try_catch.
  unfold bind at 1. unfold lift at 1. rewrite Htext.
  unfold bind at 1. unfold post. unfold bind at 1. unfold emit at 1.
  unfold lift at 1. fold (token_request_body cfg codeText). rewrite Hpost.
  unfold bind at 1. unfold lift at 1. rewrite Htoken.
  unfold bind at 1. unfold session_set at 1.
  unfold bind at 1. unfold log at 1. cbn [accessToken effects].
  rewrite <- app_assoc.
  change (performGraphQLQuery bk token _) with (performGraphQLQuery bk token w1).
  rewrite Hrun. reflexivity.
Qed.

(** The exchange raised: nothing is written, nothing is queried. *)
Lemma callback_exchange_raised (cfg : Config) (bk : Backend)
    (query : list (string * JsValue)) (w : World) (e : JsError) :
  truthy (query_param query "code") = true ->
  exchange cfg bk (query_param query "code") = Thrown e ->
  exists evs,
    callback_handler cfg bk query w
      = (Normal (json 500 (error_details "Failed to obtain access token" (message e))),
         log w evs)
    /\ session_writes evs = [] /\ graphql_ops evs = [].
Proof.
  intros Hcode Hex. unfold exchange in Hex.
  unfold callback_handler. rewrite Hcode. cbn [negb]. unfold try_catch.
  unfold bind at 1. unfold lift at 1.
  destruct (to_string (query_param query "code")) as [codeText|e0].
  - unfold bind at 1. unfold post. unfold bind at 1. unfold emit at 1.
    unfold lift at 1. fold (token_request_body cfg codeText).
    destruct (axios_post bk tokenUrl (token_request_body cfg codeText))
      as [tokens|e1].
    + unfold bind at 1. unfold lift at 1. rewrite Hex.
      unfold bind, console_error, emit, ret. rewrite log_log.
      eexists. split; [reflexivity|]. split; reflexivity.
    + injection Hex as ->.
      unfold bind, console_error, emit, ret. rewrite log_log.
      eexists. split; [reflexivity|]. split; reflexivity.
  - injection Hex as ->.
    unfold bind, console_error, emit, ret.
    eexists. split; [reflexivity|]. split; reflexivity.
Qed.

Lemma gateway_only_no_session_write (evs : list Effect) :
  gateway_only evs = true -> session_writes evs = [].
Proof.
  induction evs as [|ev evs IH]; [reflexivity|].
  cbn. destruct ev; cbn; try discriminate; exact IH.
Qed.

Lemma session_writes_app (a b : list Effect) :
  session_writes (a ++ b) = (session_writes a ++ session_writes b)%list.
Proof.
  induction a as [|ev a IH]; [reflexivity|].
  destruct ev; cbn; now rewrite IH.
Qed.

Lemma token_call_raises_exchange (cfg : Config) (bk : Backend)
    (code : JsValue) (codeText : string) (e : JsError) :
  to_string code = Normal codeText ->
  token_call_raises bk (token_request_body cfg codeText) e ->
  exchange cfg bk code = Thrown e.
Proof.
  intros Htext Hraise. unfold exchange. rewrite Htext.
  destruct Hraise as [Hpost|tokens Hpost Hread]; now rewrite Hpost.
Qed.

(** ** The callback: the claims *)

(** C7. A callback request without a [code] query parameter is answered with
    HTTP 400 and the body [{ error: "Authorization code not found" }]; the
    world is left as it was: no token request, no GraphQL request, no write
    of the session. *)
Theorem missing_code_is_rejected (cfg : Config) (bk : Backend)
    (query : list (string * JsValue)) (w : World) :
  own_property "code" query = None ->
  app cfg bk (GetCallback query) w
    = (Normal (mkResponse 400 None
                 (Some (VObj [("error", VStr "Authorization code not found")]))),
       w).
Proof.
  intros Hcode. cbn [app]. apply callback_without_code.
  unfold query_param. now rewrite Hcode.
Qed.

Lemma missing_code_is_rejected_witness :
  app sample_config
      (mock (Normal (token_body "tok")) (Normal (hubs_payload [hub_one]))
            (fun _ => Normal (projects_payload [project_alpha])))
      (GetCallback [("state", VStr "xyz")]) fresh
    = (Normal (mkResponse 400 None
                 (Some (VObj [("error", VStr "Authorization code not found")]))),
       fresh).
Proof. apply (missing_code_is_rejected sample_config); reflexivity. Defined.

(** C3, as the specification states it, fails: a 2xx answer of the token
    endpoint whose body carries no [access_token] raises nothing; the handler
    goes on to the orchestration and answers HTTP 200. *)
Lemma malformed_token_body_is_answered_200 :
  get malformed_token_body "access_token" = Normal VUndef
  /\ exists r,
       fst (callback_handler sample_config
              (mock (Normal malformed_token_body) (Thrown unauthorized)
                    (fun _ => Thrown unauthorized))
              (code_query "abc") fresh) = Normal r
       /\ status r = 200 /\ status r <> 500.
Proof.
  split; [reflexivity|]. eexists. split; [reflexivity|].
  split; [reflexivity|]. cbn. discriminate.
Qed.

(** C3, amended. Whenever the call of the token endpoint raises an error
    (axios throws on a network error or a status outside 2xx, or the response
    data is null), the callback answers HTTP 500 with the body
    [{ error: "Failed to obtain access token", details }] where [details] is
    the message of that error. *)
Theorem raised_token_failure_is_500 (cfg : Config) (bk : Backend)
    (query : list (string * JsValue)) (w : World) (codeText : string)
    (e : JsError) :
  truthy (query_param query "code") = true ->
  to_string (query_param query "code") = Normal codeText ->
  token_call_raises bk (token_request_body cfg codeText) e ->
  fst (callback_handler cfg bk query w)
    = Normal (mkResponse 500 None
                (Some (VObj [("error", VStr "Failed to obtain access token");
                             ("details", VStr (message e))]))).
Proof.
  intros Hcode Htext Hraise.
  destruct (callback_exchange_raised cfg bk query w e Hcode
              (token_call_raises_exchange cfg bk _ codeText e Htext Hraise))
    as (evs & -> & _).
  reflexivity.
Qed.

Lemma raised_token_failure_is_500_witness :
  fst (callback_handler sample_config
         (mock (Thrown (mkError "AxiosError" "Request failed with status code 401"))
               (Normal (hubs_payload [hub_one]))
               (fun _ => Normal (projects_payload [project_alpha])))
         (code_query "abc") fresh)
    = Normal (mkResponse 500 None
                (Some (VObj [("error", VStr "Failed to obtain access token");
                             ("details", VStr "Request failed with status code 401")]))).
Proof.
  apply (raised_token_failure_is_500 sample_config _ (code_query "abc") fresh "abc"
           (mkError "AxiosError" "Request failed with status code 401"));
    [reflexivity | reflexivity | apply post_throws; reflexivity].
Defined.

(** C4. Whenever an error is thrown during the hubs query or the projects
    query, the orchestrator returns [{ error, details }] with [details] the
    message of that error; the callback delivers it as HTTP 200 (it is not
    turned into the 500 answer); and this value differs from both
    empty-result values, whatever the hub id. *)
Theorem query_failure_is_reported_with_details (cfg : Config) (bk : Backend)
    (query : list (string * JsValue)) (w : World) (codeText : string)
    (tokens : JsValue) (token : string) (e : JsError) :
  truthy (query_param query "code") = true ->
  to_string (query_param query "code") = Normal codeText ->
  axios_post bk tokenUrl (token_request_body cfg codeText) = Normal tokens ->
  get tokens "access_token" = Normal (VStr token) ->
  query_fails bk token e ->
  let report := VObj [("error", VStr "An error occurred during the GraphQL query");
                      ("details", VStr (message e))] in
  (forall w0, fst (performGraphQLQuery bk (VStr token) w0) = Normal report)
  /\ fst (callback_handler cfg bk query w) = Normal (mkResponse 200 None (Some report))
  /\ report <> VObj [("error", VStr "No hubs found or access denied.")]
  /\ (forall hubId : string,
        report <> VObj [("error", VStr ("No projects found in hub " ++ hubId ++ "."))]).
Proof.
  intros Hcode Htext Hpost Htoken Hfail report.
  assert (Hrun : forall w0, fst (performGraphQLQuery bk (VStr token) w0) = Normal report).
  { intros w0. destruct Hfail as [Hhubs|payload hub others Hreq Hhubs Hall Hproj].
    - now rewrite (perform_hubs_thrown bk token w0 e Hhubs).
    - rewrite (perform_hubs_selected bk token w0 payload hub others Hreq Hhubs Hall).
      cbv zeta. now rewrite Hproj. }
  split; [exact Hrun|]. split.
  - destruct (callback_exchanged cfg bk query w codeText tokens (VStr token)
                Hcode Htext Hpost Htoken) as (result & evs & Hres & _ & ->).
    specialize (Hrun (mkWorld (Some (VStr token))
                        (effects w ++ [HttpPost tokenUrl (token_request_body cfg codeText);
                                       SessionWrite (VStr token)]))).
    rewrite Hres in Hrun. cbn [fst] in Hrun. injection Hrun as ->. reflexivity.
  - split; [discriminate|]. intros hubId. discriminate.
Qed.

Lemma query_failure_is_reported_with_details_witness :
  let bk := mock (Normal (token_body "tok")) (Normal (hubs_payload [hub_one; hub_two]))
                 (fun _ => Thrown (mkError "ClientError" "GraphQL Error (Code: 429)")) in
  let report := VObj [("error", VStr "An error occurred during the GraphQL query");
                      ("details", VStr "GraphQL Error (Code: 429)")] in
  (forall w0, fst (performGraphQLQuery bk (VStr "tok") w0) = Normal report)
  /\ fst (callback_handler sample_config bk (code_query "abc") fresh)
       = Normal (mkResponse 200 None (Some report))
  /\ report <> VObj [("error", VStr "No hubs found or access denied.")]
  /\ (forall hubId : string,
        report <> VObj [("error", VStr ("No projects found in hub " ++ hubId ++ "."))]).
Proof.
  intros bk.
  apply (query_failure_is_reported_with_details sample_config bk (code_query "abc")
           fresh "abc" (token_body "tok") "tok"
           (mkError "ClientError" "GraphQL Error (Code: 429)"));
    try reflexivity.
  apply (projects_query_fails bk "tok" _ (hubs_payload [hub_one; hub_two])
           hub_one [hub_two]); reflexivity.
Defined.

(** A callback request with a code, by the outcome of the exchange. *)
Lemma callback_with_code (cfg : Config) (bk : Backend)
    (query : list (string * JsValue)) (w : World) :
  truthy (query_param query "code") = true ->
  match exchange cfg bk (query_param query "code") with
  | Thrown e =>
      exists evs,
        callback_handler cfg bk query w
          = (Normal (json 500 (error_details "Failed to obtain access token" (message e))),
             mkWorld (accessToken w) (effects w ++ evs))
        /\ session_writes evs = []
  | Normal token =>
      exists result before after,
        callback_handler cfg bk query w
          = (Normal (json 200 result),
             mkWorld (Some token)
               (effects w ++ before ++ [SessionWrite token] ++ after))
        /\ graphql_ops before = [] /\ session_writes before = []
        /\ session_writes after = []
        /\ fst (performGraphQLQuery bk token
                  (mkWorld (Some token) (effects w ++ before ++ [SessionWrite token])))
           = Normal result
  end.
Proof.
  intros Hcode.
  destruct (exchange cfg bk (query_param query "code")) as [token|e] eqn:Hex.
  - unfold exchange in Hex.
    destruct (to_string (query_param query "code")) as [codeText|] eqn:Htext;
      [|discriminate].
    destruct (axios_post bk tokenUrl (token_request_body cfg codeText))
      as [tokens|] eqn:Hpost; [|discriminate].
    destruct (callback_exchanged cfg bk query w codeText tokens token
                Hcode Htext Hpost Hex) as (result & evs & Hrun & Hevs & Hcb).
    exists result, [HttpPost tokenUrl (token_request_body cfg codeText)], evs.
    split; [|split; [reflexivity|split; [reflexivity|split]]].
    + rewrite Hcb. unfold log. cbn [accessToken effects].
      now rewrite <- !app_assoc.
    + now apply gateway_only_no_session_write.
    + change (fst (performGraphQLQuery bk token
                     (mkWorld (Some token)
                        (effects w ++ [HttpPost tokenUrl (token_request_body cfg codeText);
                                       SessionWrite token])))
              = Normal result).
      now rewrite Hrun.
  - destruct (callback_exchange_raised cfg bk query w e Hcode Hex)
      as (evs & Hcb & Hwrites & _).
    now exists evs.
Qed.


(** C10. For a callback request with a code: when the exchange raises, the
    answer is the 500 one, the session slot is as before and the handler's
    effects hold no write of it; when the exchange completes with a token,
    that token is assigned to the slot before the orchestrator starts (no
    GraphQL request precedes the write), the orchestrator runs on the world
    holding the token, its effects hold no further write, and the slot still
    holds the token at the end whatever the orchestrator returned (a payload
    or an error value), the answer being HTTP 200 with that result. *)
Theorem session_written_iff_exchange_succeeds (cfg : Config) (bk : Backend)
    (query : list (string * JsValue)) (w : World) :
  truthy (query_param query "code") = true ->
  match exchange cfg bk (query_param query "code") with
  | Thrown e =>
      exists evs,
        callback_handler cfg bk query w
          = (Normal (json 500 (error_details "Failed to obtain access token" (message e))),
             mkWorld (accessToken w) (effects w ++ evs))
        /\ session_writes evs = []
  | Normal token =>
      exists result before after,
        callback_handler cfg bk query w
          = (Normal (json 200 result),
             mkWorld (Some token)
               (effects w ++ before ++ [SessionWrite token] ++ after))
        /\ graphql_ops before = [] /\ session_writes before = []
        /\ session_writes after = []
        /\ fst (performGraphQLQuery bk token
                  (mkWorld (Some token) (effects w ++ before ++ [SessionWrite token])))
           = Normal result
  end.
Proof. exact (callback_with_code cfg bk query w). Qed.

Lemma session_written_iff_exchange_succeeds_witness :
  exists result before after,
    callback_handler sample_config (issuing "t1") (code_query "c1") fresh
      = (Normal (json 200 result),
         mkWorld (Some (VStr "t1"))
           (effects fresh ++ before ++ [SessionWrite (VStr "t1")] ++ after))
    /\ graphql_ops before = [] /\ session_writes before = []
    /\ session_writes after = []
    /\ fst (performGraphQLQuery (issuing "t1") (VStr "t1")
              (mkWorld (Some (VStr "t1"))
                 (effects fresh ++ before ++ [SessionWrite (VStr "t1")])))
       = Normal result.
Proof.
  apply (session_written_iff_exchange_succeeds sample_config (issuing "t1")
           (code_query "c1") fresh).
  reflexivity.
Defined.

(** ** The session slot along a sequence of requests *)

(** One request: it is answered, the slot is assigned the tokens it
    obtained, and these are its only writes. *)
Lemma app_step (cfg : Config) (bk : Backend) (req : Request) (w : World) :
  exists r evs,
    app cfg bk req w
      = (Normal r,
         mkWorld (slot_after (accessToken w) (tokens_of_request cfg bk req))
                 (effects w ++ evs))
    /\ session_writes evs = tokens_of_request cfg bk req.
Proof.
  destruct req as [|query]; cbn [app tokens_of_request].
  - eexists; exists []. rewrite app_nil_r. destruct w. split; reflexivity.
  - destruct (truthy (query_param query "code")) eqn:Hcode.
    + pose proof (callback_with_code cfg bk query w Hcode) as H.
      destruct (exchange cfg bk (query_param query "code")) as [token|e].
      * destruct H as (result & before & after & -> & _ & Hb & Ha & _).
        eexists; eexists; split; [reflexivity|].
        rewrite !session_writes_app, Hb, Ha. reflexivity.
      * destruct H as (evs & -> & Hw). eexists; exists evs. split; [reflexivity|assumption].
    + rewrite (callback_without_code cfg bk query w Hcode).
      eexists; exists []. rewrite app_nil_r. destruct w. split; reflexivity.
Qed.

Lemma slot_after_app (slot : option JsValue) (a b : list JsValue) :
  slot_after slot (a ++ b) = slot_after (slot_after slot a) b.
Proof. unfold slot_after. apply fold_left_app. Qed.

Lemma serve_writes (cfg : Config) (steps : list (Backend * Request)) :
  forall w, exists evs,
    snd (serve cfg steps w)
      = mkWorld (slot_after (accessToken w) (tokens_obtained cfg steps))
                (effects w ++ evs)
    /\ session_writes evs = tokens_obtained cfg steps.
Proof.
  induction steps as [|[bk req] rest IH]; intros w.
  - exists []. cbn. rewrite app_nil_r. destruct w. split; reflexivity.
  - cbn [serve]. destruct (app_step cfg bk req w) as (r & evs & -> & Hevs).
    destruct (IH (mkWorld (slot_after (accessToken w) (tokens_of_request cfg bk req))
                          (effects w ++ evs))) as (evs' & Hrest & Hevs').
    destruct (serve cfg rest _) as [rs w'']. cbn [snd] in *.
    exists (evs ++ evs')%list. rewrite Hrest. cbn [accessToken effects].
    unfold tokens_obtained. cbn [flat_map fst snd]. fold (tokens_obtained cfg rest).
    rewrite slot_after_app, session_writes_app, Hevs, Hevs', app_assoc.
    split; reflexivity.
Qed.

Lemma slot_after_ok (written : list JsValue) :
  forall slot,
    slot_ok slot = true -> forallb is_bearer_token written = true ->
    slot_ok (slot_after slot written) = true.
Proof.
  induction written as [|v rest IH]; intros slot Hslot Hall; [exact Hslot|].
  cbn [forallb] in Hall. apply andb_prop in Hall as [Hv Hrest].
  cbn. apply IH; assumption.
Qed.

(** C8, as the specification states it, fails on both counts: a session
    that goes through the authorization twice has its slot written twice,
    and a token endpoint that answers with an empty [access_token] leaves an
    empty text in the slot. *)
Lemma session_slot_rewritten_and_unchecked :
  ~ (length (session_writes (effects (snd (serve sample_config two_logins fresh)))) <= 1)
  /\ session_writes (effects (snd (serve sample_config two_logins fresh)))
     = [VStr "t1"; VStr "t2"]
  /\ slot_ok (accessToken
                (snd (serve sample_config
                        [(issuing "", GetCallback (code_query "c1"))] fresh)))
     = false.
Proof.
  split; [|split]; [|reflexivity|reflexivity].
  change (~ (2 <= 1)). lia.
Qed.

(** C8, amended. Along every sequence of requests of a session, whatever
    the session held before and whatever the token endpoint answers, the slot
    is assigned exactly the tokens obtained by the callback requests whose
    exchange completes, one write each and in order (no other handler writes
    it, and a later login replaces the token of an earlier one), and it ends
    holding the last of them.  If moreover the slot starts absent or with a
    non-empty token text and every token obtained is a non-empty text, it
    ends absent or with a non-empty token text. *)
Theorem session_slot_follows_the_exchanges (cfg : Config)
    (steps : list (Backend * Request)) (w : World) :
  exists evs,
    effects (snd (serve cfg steps w)) = (effects w ++ evs)%list
    /\ session_writes evs = tokens_obtained cfg steps
    /\ accessToken (snd (serve cfg steps w))
       = slot_after (accessToken w) (tokens_obtained cfg steps)
    /\ (slot_ok (accessToken w) = true ->
        forallb is_bearer_token (tokens_obtained cfg steps) = true ->
        slot_ok (accessToken (snd (serve cfg steps w))) = true).
Proof.
  destruct (serve_writes cfg steps w) as (evs & -> & Hevs).
  exists evs. cbn [accessToken effects].
  repeat split; try assumption. intros Hslot Hall. now apply slot_after_ok.
Qed.

Lemma session_slot_follows_the_exchanges_witness :
  exists evs,
    effects (snd (serve sample_config two_logins fresh)) = (effects fresh ++ evs)%list
    /\ session_writes evs = [VStr "t1"; VStr "t2"]
    /\ accessToken (snd (serve sample_config two_logins fresh)) = Some (VStr "t2")
    /\ slot_ok (accessToken (snd (serve sample_config two_logins fresh))) = true.
Proof.
  destruct (session_slot_follows_the_exchanges sample_config two_logins fresh)
    as (evs & Heffects & Hwrites & Hslot & Hok).
  exists evs. split; [exact Heffects|]. split; [exact Hwrites|].
  split; [exact Hslot|]. apply Hok; reflexivity.
Defined.

(** A session whose token answer carries no [access_token]: the slot is
    written once all the same, with [undefined]. *)
Example token_answer_without_token_is_written :
  let steps := [(mock (Normal malformed_token_body) (Thrown unauthorized)
                      (fun _ => Thrown unauthorized),
                 GetCallback (code_query "abc"))] in
  session_writes (effects (snd (serve sample_config steps fresh))) = [VUndef]
  /\ accessToken (snd (serve sample_config steps fresh)) = Some VUndef.
Proof. split; reflexivity. Qed.

(** ** The query string round trip *)

Ltac each_byte c :=
  destruct c as [b0 b1 b2 b3 b4 b5 b6 b7];
  destruct b0, b1, b2, b3, b4, b5, b6, b7.

Lemma urldecode_step (c : ascii) (rest : string) :
  urldecode (urlencode (String c rest)) = String c (urldecode (urlencode rest)).
Proof. unfold urldecode. each_byte c; reflexivity. Qed.

Lemma urldecode_urlencode (s : string) : urldecode (urlencode s) = s.
Proof.
  induction s as [|c rest IH]; [reflexivity|].
  now rewrite urldecode_step, IH.
Qed.

Lemma urlencode_step_emitted (c : ascii) (rest : string) :
  all_chars emitted (urlencode (String c rest)) = all_chars emitted (urlencode rest).
Proof. each_byte c; reflexivity. Qed.

Lemma urlencode_emitted (s : string) : all_chars emitted (urlencode s) = true.
Proof.
  induction s as [|c rest IH]; [reflexivity|].
  now rewrite urlencode_step_emitted.
Qed.

Lemma all_chars_app (p : ascii -> bool) (a b : string) :
  all_chars p (a ++ b) = all_chars p a && all_chars p b.
Proof.
  induction a as [|c a IH]; [reflexivity|].
  cbn. now rewrite IH, andb_assoc.
Qed.

Lemma all_chars_impl (p q : ascii -> bool) (s : string) :
  (forall c, p c = true -> q c = true) ->
  all_chars p s = true -> all_chars q s = true.
Proof.
  intros Hpq. induction s as [|c s IH]; [reflexivity|].
  cbn. intros H. apply andb_prop in H as [Hc Hs].
  now rewrite (Hpq c Hc), (IH Hs).
Qed.

Lemma emitted_free_of (sep : ascii) (s : string) :
  emitted sep = false -> all_chars emitted s = true -> free_of sep s = true.
Proof.
  intros Hsep. apply all_chars_impl. intros c Hc.
  destruct (Ascii.eqb c sep) eqn:E; [|reflexivity].
  apply Ascii.eqb_eq in E. subst c. congruence.
Qed.

Lemma query_char_free_of (sep : ascii) (s : string) :
  query_char sep = false -> all_chars query_char s = true -> free_of sep s = true.
Proof.
  intros Hsep. apply all_chars_impl. intros c Hc.
  destruct (Ascii.eqb c sep) eqn:E; [|reflexivity].
  apply Ascii.eqb_eq in E. subst c. congruence.
Qed.

Lemma until_char_free (sep : ascii) (s : string) :
  free_of sep s = true -> until_char sep s = s.
Proof.
  induction s as [|c s IH]; [reflexivity|].
  unfold free_of. cbn. intros H. apply andb_prop in H as [Hc Hs].
  destruct (Ascii.eqb c sep); [discriminate|]. now rewrite (IH Hs).
Qed.

Lemma until_char_app (sep : ascii) (x y : string) :
  free_of sep x = true -> until_char sep (x ++ String sep y) = x.
Proof.
  induction x as [|c x IH].
  - intros _. cbn. now rewrite Ascii.eqb_refl.
  - unfold free_of. cbn. intros H. apply andb_prop in H as [Hc Hx].
    destruct (Ascii.eqb c sep); [discriminate|]. now rewrite (IH Hx).
Qed.

Lemma after_char_app (sep : ascii) (x y : string) :
  free_of sep x = true -> after_char sep (x ++ String sep y) = y.
Proof.
  induction x as [|c x IH].
  - intros _. cbn. now rewrite Ascii.eqb_refl.
  - unfold free_of. cbn. intros H. apply andb_prop in H as [Hc Hx].
    destruct (Ascii.eqb c sep); [discriminate|]. now apply IH.
Qed.

Lemma split_on_free (sep : ascii) (s : string) :
  free_of sep s = true -> split_on sep s = [s].
Proof.
  induction s as [|c s IH]; [reflexivity|].
  unfold free_of. cbn. intros H. apply andb_prop in H as [Hc Hs].
  destruct (Ascii.eqb c sep); [discriminate|]. now rewrite (IH Hs).
Qed.

Lemma split_on_app (sep : ascii) (x y : string) :
  free_of sep x = true -> split_on sep (x ++ String sep y) = x :: split_on sep y.
Proof.
  induction x as [|c x IH].
  - intros _. cbn. now rewrite Ascii.eqb_refl.
  - unfold free_of. cbn. intros H. apply andb_prop in H as [Hc Hx].
    destruct (Ascii.eqb c sep); [discriminate|]. now rewrite (IH Hx).
Qed.

Lemma serialized_pair_chars (p : string * string) :
  all_chars query_char (serialized_pair p) = true.
Proof.
  unfold serialized_pair. rewrite !all_chars_app.
  assert (H : forall s, all_chars query_char (urlencode s) = true).
  { intros s. apply (all_chars_impl emitted); [|apply urlencode_emitted].
    intros c Hc. unfold query_char. now rewrite Hc. }
  now rewrite !H.
Qed.

Lemma serialized_pair_free_of_amp (p : string * string) :
  free_of "&" (serialized_pair p) = true.
Proof.
  unfold serialized_pair, free_of. rewrite !all_chars_app.
  fold (free_of "&" (urlencode (fst p))). fold (free_of "&" (urlencode (snd p))).
  rewrite !emitted_free_of by (reflexivity || apply urlencode_emitted).
  reflexivity.
Qed.

Lemma serialized_pair_not_empty (p : string * string) :
  String.eqb (serialized_pair p) "" = false.
Proof.
  unfold serialized_pair. destruct (urlencode (fst p)); reflexivity.
Qed.

Lemma parse_serialized_pair (p : string * string) :
  parse_pair (serialized_pair p) = p.
Proof.
  unfold parse_pair, serialized_pair.
  change ("=" ++ urlencode (snd p)) with (String "=" (urlencode (snd p))).
  rewrite until_char_app, after_char_app
    by (apply emitted_free_of; [reflexivity | apply urlencode_emitted]).
  rewrite !urldecode_urlencode. now destruct p.
Qed.

Lemma split_serialized (p : string * string) (params : list (string * string)) :
  split_on "&" (String.concat "&" (map serialized_pair (p :: params)))
    = map serialized_pair (p :: params).
Proof.
  revert p. induction params as [|p' params IH]; intros p.
  - cbn [map String.concat]. apply split_on_free, serialized_pair_free_of_amp.
  - change (String.concat "&" (map serialized_pair (p :: p' :: params)))
      with (serialized_pair p
              ++ String "&" (String.concat "&" (map serialized_pair (p' :: params)))).
    rewrite split_on_app by apply serialized_pair_free_of_amp.
    rewrite IH. reflexivity.
Qed.

(** What [URLSearchParams] serializes, the parser reads back. *)
Lemma parse_toString (params : list (string * string)) :
  urlencoded_parse (URLSearchParams_toString params) = params.
Proof.
  unfold urlencoded_parse, URLSearchParams_toString.
  fold serialized_pair.
  change (fun p : string * string => urlencode (fst p) ++ "=" ++ urlencode (snd p))
    with serialized_pair.
  destruct params as [|p params]; [reflexivity|].
  rewrite split_serialized.
  induction (p :: params) as [|q l IH]; [reflexivity|].
  cbn [map filter]. rewrite serialized_pair_not_empty. cbn [negb map].
  now rewrite parse_serialized_pair, IH.
Qed.

Lemma toString_chars (params : list (string * string)) :
  all_chars query_char (URLSearchParams_toString params) = true.
Proof.
  unfold URLSearchParams_toString.
  change (fun p : string * string => urlencode (fst p) ++ "=" ++ urlencode (snd p))
    with serialized_pair.
  induction params as [|p params IH]; [reflexivity|].
  destruct params as [|p' params].
  - cbn [map String.concat]. apply serialized_pair_chars.
  - change (String.concat "&" (map serialized_pair (p :: p' :: params)))
      with (serialized_pair p
              ++ String "&" (String.concat "&" (map serialized_pair (p' :: params)))).
    rewrite all_chars_app, serialized_pair_chars. cbn [all_chars andb].
    exact IH.
Qed.

(** The query of [base?params] is the serialized parameters, when [base]
    holds neither [?] nor [#]. *)
Lemma url_query_toString (base : string) (params : list (string * string)) :
  free_of "?" base = true -> free_of "#" base = true ->
  url_query (base ++ "?" ++ URLSearchParams_toString params)
    = URLSearchParams_toString params.
Proof.
  intros Hq Hh. unfold url_query.
  rewrite until_char_free.
  - change ("?" ++ URLSearchParams_toString params)
      with (String "?" (URLSearchParams_toString params)).
    now apply after_char_app.
  - unfold free_of. rewrite all_chars_app. fold (free_of "#" base). rewrite Hh.
    cbn [andb append all_chars]. cbn.
    apply (query_char_free_of "#"); [reflexivity | apply toString_chars].
Qed.

(** ** The authorize redirect *)

(** C9. Every request to GET / is answered with a 302 redirect, whatever
    the world, and leaves it as it was.  The target is the provider's
    authorize URL followed by a query string which reads back as exactly four
    parameters: [response_type=code], [client_id] with the configured client
    id, [redirect_uri] with the local callback URI, and [scope] with the three
    scopes joined by spaces; there is no [state] and no [nonce] among them. *)
Theorem root_redirects_to_authorize (cfg : Config) (bk : Backend) (w : World) :
  exists url,
    app cfg bk GetRoot w = (Normal (mkResponse 302 (Some url) None), w)
    /\ url = "https://developer.api.autodesk.com/authentication/v2/authorize"
             ++ "?response_type=code&client_id=" ++ urlencode (CLIENT_ID cfg)
             ++ "&redirect_uri=http%3A%2F%2Flocalhost%3A8080%2Fapi%2Fauth%2Fcallback"
             ++ "&scope=data%3Aread+account%3Aread+viewables%3Aread"
    /\ until_char "?" url
       = "https://developer.api.autodesk.com/authentication/v2/authorize"
    /\ urlencoded_parse (url_query url)
       = [("response_type", "code");
          ("client_id", CLIENT_ID cfg);
          ("redirect_uri", "http://localhost:8080/api/auth/callback");
          ("scope", "data:read account:read viewables:read")]
    /\ ~ In "state" (map fst (urlencoded_parse (url_query url)))
    /\ ~ In "nonce" (map fst (urlencoded_parse (url_query url))).
Proof.
  exists (authUrl ++ "?" ++ URLSearchParams_toString (authorize_params cfg)).
  assert (Hparse : urlencoded_parse
                     (url_query (authUrl ++ "?"
                                   ++ URLSearchParams_toString (authorize_params cfg)))
                   = authorize_params cfg).
  { rewrite url_query_toString by reflexivity. apply parse_toString. }
  split; [reflexivity|]. split.
  - unfold URLSearchParams_toString, authorize_params. cbn [map String.concat fst snd].
    replace (urlencode "response_type") with "response_type" by (vm_compute; reflexivity).
    replace (urlencode "code") with "code" by (vm_compute; reflexivity).
    replace (urlencode "client_id") with "client_id" by (vm_compute; reflexivity).
    replace (urlencode "redirect_uri") with "redirect_uri" by (vm_compute; reflexivity).
    replace (urlencode REDIRECT_URI)
      with "http%3A%2F%2Flocalhost%3A8080%2Fapi%2Fauth%2Fcallback"
      by (vm_compute; reflexivity).
    replace (urlencode "scope") with "scope" by (vm_compute; reflexivity).
    replace (urlencode (String.concat " " SCOPES))
      with "data%3Aread+account%3Aread+viewables%3Aread"
      by (vm_compute; reflexivity).
    reflexivity.
  - split.
    + change (authUrl ++ "?" ++ URLSearchParams_toString (authorize_params cfg))
        with (authUrl ++ String "?" (URLSearchParams_toString (authorize_params cfg))).
      now apply until_char_app.
    + rewrite Hparse. split; [reflexivity|].
      split; cbn; intros H; repeat (destruct H as [H|H]; [discriminate|]); exact H.
Qed.

(** ** Outside the data model *)

(** The hypothesis that the list is made of hubs matters: the listing reads
    [id] off every entry before any hub is selected, so a [null] entry
    anywhere in the list ends the run in the catch-all answer, and no
    projects query is sent. *)
Example null_entry_stops_the_listing :
  exists evs,
    performGraphQLQuery
      (mock (Normal (token_body "tok")) (Normal (hubs_payload [hub_one; VNull]))
            (fun _ => Normal (projects_payload [project_alpha])))
      (VStr "tok") fresh
      = (Normal (VObj [("error", VStr "An error occurred during the GraphQL query");
                       ("details", VStr "Cannot read properties of null (reading 'id')")]),
         log fresh evs)
    /\ project_queries evs = [].
Proof. eexists. split; reflexivity. Qed.

(** ** services/apiService.js: the token *)

Lemma truthy_get (v : JsValue) (k : string) :
  truthy v = true -> get v k = Normal (field v k).
Proof. intros Hv. apply get_field. now destruct v. Qed.

(** [getAccessToken], case by case. *)
Lemma getAccessToken_run (env : apiService.Env) (http : apiService.Http)
    (l : list apiService.Event) :
  let body := URLSearchParams_toString (apiService.credentials_params env) in
  let sent := (l ++ [apiService.Post apiService.token_url body])%list in
  let failed detail :=
    (apiService.Done VNull,
     (sent ++ [apiService.LogError "Falha ao obter o token de acesso." None;
               apiService.LogError "Erro:" (Some detail)])%list) in
  apiService.getAccessToken env http l =
    match apiService.http_post http apiService.token_url body with
    | apiService.Raised f => failed (apiService.failure_detail f)
    | apiService.Done data =>
        match get data "access_token" with
        | Thrown e => failed (VStr (message e))
        | Normal token =>
            (apiService.Done token,
             (sent ++ [apiService.Log "Token de acesso obtido com sucesso."])%list)
        end
    end.
Proof.
  intros body sent failed. subst body sent failed.
  unfold apiService.getAccessToken, apiService.try_catch.
  unfold apiService.bind at 1. unfold apiService.emit at 1.
  unfold apiService.bind at 1.
  destruct (apiService.http_post http apiService.token_url _) as [data|f].
  - unfold apiService.bind at 1. unfold apiService.lift at 1.
    destruct (get data "access_token") as [token|e].
    + reflexivity.
    + unfold apiService.bind, apiService.emit, apiService.ret.
      cbn [apiService.response apiService.error truthy].
      rewrite <- !app_assoc. reflexivity.
  - unfold apiService.failure_detail.
    unfold apiService.bind at 1. unfold apiService.emit at 1.
    unfold apiService.bind at 1.
    destruct (truthy (apiService.response f)) eqn:Hresp.
    + rewrite (truthy_get _ "data" Hresp).
      unfold apiService.lift, apiService.bind, apiService.emit, apiService.ret.
      rewrite <- !app_assoc. reflexivity.
    + unfold apiService.bind, apiService.emit, apiService.ret.
      rewrite <- !app_assoc. reflexivity.
Qed.

Lemma requests_app (a b : list apiService.Event) :
  apiService.requests (a ++ b)
    = (apiService.requests a ++ apiService.requests b)%list.
Proof.
  induction a as [|ev a IH]; [reflexivity|].
  destruct ev; cbn; now rewrite IH.
Qed.

(** [getAccessToken] never throws: it sends one POST to the token endpoint,
    whose form reads back as the client-credentials request (an unset
    environment variable going out as the text "undefined"), and it returns
    the [access_token] of the answer when there is an answer to read it off,
    [null] in every other case. *)
Theorem getAccessToken_returns_token_or_null (env : apiService.Env)
    (http : apiService.Http) (l : list apiService.Event) :
  exists token evs body,
    apiService.getAccessToken env http l = (apiService.Done token, (l ++ evs)%list)
    /\ apiService.requests evs
       = [apiService.Post "https://developer.api.autodesk.com/authentication/v2/token" body]
    /\ urlencoded_parse body
       = [("client_id", apiService.env_text (apiService.CLIENT_ID env));
          ("client_secret", apiService.env_text (apiService.CLIENT_SECRET env));
          ("grant_type", "client_credentials");
          ("scope", "data:read data:write data:create data:search")]
    /\ match apiService.http_post http apiService.token_url body with
       | apiService.Raised _ => token = VNull
       | apiService.Done data =>
           if nullish data then token = VNull
           else token = field data "access_token"
       end.
Proof.
  pose proof (getAccessToken_run env http l) as Hrun. cbv zeta in Hrun.
  set (body := URLSearchParams_toString (apiService.credentials_params env)) in *.
  assert (Hbody : urlencoded_parse body = apiService.credentials_params env)
    by apply parse_toString.
  destruct (apiService.http_post http apiService.token_url body) as [data|f] eqn:Hpost.
  - destruct (nullish data) eqn:Hnull.
    + assert (Hget : exists e, get data "access_token" = Thrown e)
        by (destruct data; try discriminate; eexists; reflexivity).
      destruct Hget as [e Hget]. rewrite Hget, <- app_assoc in Hrun.
      eexists; eexists; exists body. split; [exact Hrun|].
      split; [reflexivity|]. split; [exact Hbody|].
      rewrite Hpost, Hnull. reflexivity.
    + rewrite (get_field _ _ Hnull), <- app_assoc in Hrun.
      eexists; eexists; exists body. split; [exact Hrun|].
      split; [reflexivity|]. split; [exact Hbody|].
      rewrite Hpost, Hnull. reflexivity.
  - rewrite <- app_assoc in Hrun.
    eexists; eexists; exists body. split; [exact Hrun|].
    split; [reflexivity|]. split; [exact Hbody|].
    rewrite Hpost. reflexivity.
Qed.

(** ** services/apiService.js: the listing *)

Lemma getAccessToken_done (env : apiService.Env) (http : apiService.Http)
    (l : list apiService.Event) :
  exists token evs,
    apiService.getAccessToken env http l = (apiService.Done token, (l ++ evs)%list)
    /\ apiService.requests evs
       = [apiService.Post apiService.token_url
            (URLSearchParams_toString (apiService.credentials_params env))].
Proof.
  rewrite getAccessToken_run. cbv zeta.
  destruct (apiService.http_post http apiService.token_url _) as [data|f].
  - destruct (get data "access_token") as [token|e];
      rewrite <- app_assoc; eexists; eexists; split; reflexivity.
  - rewrite <- app_assoc; eexists; eexists; split; reflexivity.
Qed.

(** [getProjects] after the token, case by case. *)
Lemma getProjects_run (env : apiService.Env) (http : apiService.Http)
    (l l1 : list apiService.Event) (token : JsValue) :
  apiService.getAccessToken env http l = (apiService.Done token, l1) ->
  let nothing msg more :=
    (apiService.Done (VArr []),
     (l1 ++ more ++ [apiService.listing_failed msg])%list) in
  apiService.getProjects env http l =
    if negb (truthy token) then
      nothing "Não foi possível obter o token de acesso." []
    else
      match to_string token with
      | Thrown e => nothing (message e) []
      | Normal tokenText =>
          let authorization := "Bearer " ++ tokenText in
          let ask := [apiService.Get apiService.base_url "project/v1/hubs" authorization] in
          match apiService.http_get http apiService.base_url "project/v1/hubs"
                  authorization with
          | apiService.Raised f => nothing (message (apiService.error f)) ask
          | apiService.Done data =>
              match get data "data" with
              | Thrown e => nothing (message e) ask
              | Normal hubs =>
                  match apiService.array_map apiService.hub_summary hubs with
                  | Thrown e => nothing (message e) ask
                  | Normal projects => (apiService.Done projects, (l1 ++ ask)%list)
                  end
              end
          end
      end.
Proof.
  intros Htoken nothing. subst nothing.
  unfold apiService.getProjects, apiService.try_catch.
  unfold apiService.bind at 1. rewrite Htoken.
  unfold apiService.bind at 1.
  destruct (negb (truthy token)); [reflexivity|].
  unfold apiService.ret at 1.
  unfold apiService.bind at 1. unfold apiService.lift at 1.
  destruct (to_string token) as [tokenText|e]; [|reflexivity].
  cbv zeta.
  unfold apiService.bind at 1. unfold apiService.emit at 1.
  unfold apiService.bind at 1.
  destruct (apiService.http_get http apiService.base_url "project/v1/hubs" _)
    as [data|f]; [|unfold apiService.bind, apiService.emit, apiService.ret,
                     apiService.listing_failed; now rewrite <- app_assoc].
  unfold apiService.bind at 1. unfold apiService.lift at 1.
  destruct (get data "data") as [hubs|e];
    [|unfold apiService.bind, apiService.emit, apiService.ret,
        apiService.listing_failed; now rewrite <- app_assoc].
  unfold apiService.bind at 1. unfold apiService.lift at 1.
  destruct (apiService.array_map apiService.hub_summary hubs) as [projects|e];
    [reflexivity|].
  unfold apiService.bind, apiService.emit, apiService.ret,
    apiService.listing_failed; now rewrite <- app_assoc.
Qed.

Lemma array_map_array (cb : JsValue -> Completion JsValue) (v r : JsValue) :
  apiService.array_map cb v = Normal r -> exists ys, r = VArr ys.
Proof.
  destruct v; cbn; try discriminate.
  destruct (apiService.map_items cb items) as [ys|e]; [|discriminate].
  intros H. injection H as <-. now exists ys.
Qed.

Lemma hub_summary_has_attributes (hub : JsValue) :
  apiService.has_attributes hub = true ->
  apiService.hub_summary hub = Normal (apiService.summary hub).
Proof.
  unfold apiService.has_attributes, apiService.hub_summary, apiService.summary.
  intros H. apply andb_prop in H as [Hhub Hattr].
  apply negb_true_iff in Hhub. apply negb_true_iff in Hattr.
  now rewrite !(get_field hub _ Hhub), (get_field _ "name" Hattr).
Qed.

Lemma hub_summary_without_attributes (hub : JsValue) :
  apiService.has_attributes hub = false ->
  exists e, apiService.hub_summary hub = Thrown e.
Proof.
  unfold apiService.has_attributes, apiService.hub_summary.
  destruct (nullish hub) eqn:Hhub.
  - intros _. destruct hub; try discriminate; eexists; reflexivity.
  - cbn [negb andb]. intros Hattr. apply negb_false_iff in Hattr.
    rewrite !(get_field hub _ Hhub).
    destruct (field hub "attributes"); try discriminate; eexists; reflexivity.
Qed.

Lemma map_items_summary (hubs : list JsValue) :
  if forallb apiService.has_attributes hubs
  then apiService.map_items apiService.hub_summary hubs
       = Normal (map apiService.summary hubs)
  else exists e, apiService.map_items apiService.hub_summary hubs = Thrown e.
Proof.
  induction hubs as [|hub rest IH]; [reflexivity|].
  cbn [forallb apiService.map_items map].
  destruct (apiService.has_attributes hub) eqn:Hhub.
  - rewrite (hub_summary_has_attributes _ Hhub). cbn [andb].
    destruct (forallb apiService.has_attributes rest).
    + now rewrite IH.
    + destruct IH as [e ->]. now exists e.
  - destruct (hub_summary_without_attributes _ Hhub) as [e ->]. now exists e.
Qed.

(** Every run of [getProjects]: an array comes back, after the token request
    and at most one request for the hubs. *)
Lemma getProjects_cases (env : apiService.Env) (http : apiService.Http)
    (l : list apiService.Event) :
  let post := apiService.Post apiService.token_url
                (URLSearchParams_toString (apiService.credentials_params env)) in
  exists items evs,
    apiService.getProjects env http l = (apiService.Done (VArr items), (l ++ evs)%list)
    /\ (apiService.requests evs = [post]
        \/ exists authorization,
             apiService.requests evs
             = [post; apiService.Get apiService.base_url "project/v1/hubs" authorization]).
Proof.
  intros post.
  destruct (getAccessToken_done env http l) as (token & evs & Htoken & Hreq).
  rewrite (getProjects_run env http l _ token Htoken). cbv zeta.
  assert (Hnone : forall msg,
             apiService.requests (evs ++ [] ++ [apiService.listing_failed msg]) = [post]).
  { intros msg. now rewrite requests_app, Hreq. }
  assert (Hask : forall a tail,
             apiService.requests tail = [] ->
             apiService.requests
               (evs ++ [apiService.Get apiService.base_url "project/v1/hubs" a] ++ tail)
             = [post; apiService.Get apiService.base_url "project/v1/hubs" a]).
  { intros a tail Htail. rewrite !requests_app, Hreq, Htail. reflexivity. }
  destruct (negb (truthy token)).
  { eexists; eexists. rewrite <- app_assoc. split; [reflexivity|]. left. apply Hnone. }
  destruct (to_string token) as [tokenText|e].
  2:{ eexists; eexists. rewrite <- app_assoc. split; [reflexivity|]. left. apply Hnone. }
  cbv zeta.
  destruct (apiService.http_get http apiService.base_url "project/v1/hubs" _)
    as [data|f].
  2:{ eexists; eexists. rewrite <- app_assoc. split; [reflexivity|].
      right. eexists. now apply Hask. }
  destruct (get data "data") as [hubs|e].
  2:{ eexists; eexists. rewrite <- app_assoc. split; [reflexivity|].
      right. eexists. now apply Hask. }
  destruct (apiService.array_map apiService.hub_summary hubs) as [projects|e] eqn:Hmap.
  - destruct (array_map_array _ _ _ Hmap) as [ys ->].
    eexists; eexists. rewrite <- app_assoc. split; [reflexivity|].
    right. eexists. rewrite <- (app_nil_r [_]). now apply Hask.
  - eexists; eexists. rewrite <- app_assoc. split; [reflexivity|].
    right. eexists. now apply Hask.
Qed.

(** The resolver of the [projects] field never rejects: whatever the token
    endpoint and the hubs endpoint answer or throw, and whatever the
    environment holds, it resolves with an array. *)
Theorem resolver_always_yields_a_list (env : apiService.Env)
    (http : apiService.Http) (l : list apiService.Event) :
  exists items l',
    projectQueries.resolve env http l = (apiService.Done (VArr items), l').
Proof.
  destruct (getProjects_cases env http l) as (items & evs & Hrun & _).
  now exists items, (l ++ evs)%list.
Qed.

(** [getProjects] sends the token request exactly once and first, then at
    most one GET of [project/v1/hubs] on the API base URL, and nothing
    else: no retry of either request. *)
Theorem listing_sends_token_request_then_at_most_one_get
    (env : apiService.Env) (http : apiService.Http) (l : list apiService.Event) :
  exists result evs,
    apiService.getProjects env http l = (result, (l ++ evs)%list)
    /\ let post := apiService.Post
                     "https://developer.api.autodesk.com/authentication/v2/token"
                     (URLSearchParams_toString (apiService.credentials_params env)) in
       apiService.requests evs = [post]
       \/ exists authorization,
            apiService.requests evs
            = [post;
               apiService.Get "https://developer.api.autodesk.com/"
                 "project/v1/hubs" authorization].
Proof.
  destruct (getProjects_cases env http l) as (items & evs & Hrun & Hreq).
  exists (apiService.Done (VArr items)), evs. split; [exact Hrun|exact Hreq].
Qed.

(** Without a token there is no listing: when [getAccessToken] comes back
    with a falsy value ([null] after a failure, a missing or empty
    [access_token]), [getProjects] returns the empty array, and the only
    thing it does after the token phase is to print the failure; the hubs
    endpoint is not called. *)
Theorem no_token_no_listing (env : apiService.Env) (http : apiService.Http)
    (l l1 : list apiService.Event) (token : JsValue) :
  apiService.getAccessToken env http l = (apiService.Done token, l1) ->
  truthy token = false ->
  apiService.getProjects env http l
    = (apiService.Done (VArr []),
       (l1 ++ [apiService.LogError "Erro ao obter projetos:"
                 (Some (VStr "Não foi possível obter o token de acesso."))])%list).
Proof.
  intros Htoken Hfalsy.
  rewrite (getProjects_run env http l l1 token Htoken). cbv zeta.
  now rewrite Hfalsy.
Qed.

Lemma no_token_no_listing_witness :
  let http := apiService.mock
                (apiService.Raised
                   (apiService.mkFailure
                      (mkError "AxiosError" "Request failed with status code 401")
                      (VObj [("status", VNum "401");
                             ("data", VObj [("error", VStr "invalid_client")])])))
                (apiService.Done (apiService.rest_hubs [apiService.rest_hub "b.1" "One"])) in
  apiService.getProjects apiService.sample_env http []
    = (apiService.Done (VArr []),
       ([apiService.Post apiService.token_url
           (URLSearchParams_toString
              (apiService.credentials_params apiService.sample_env));
         apiService.LogError "Falha ao obter o token de acesso." None;
         apiService.LogError "Erro:" (Some (VObj [("error", VStr "invalid_client")]))]
        ++ [apiService.LogError "Erro ao obter projetos:"
              (Some (VStr "Não foi possível obter o token de acesso."))])%list).
Proof.
  intros http.
  apply (no_token_no_listing apiService.sample_env http [] _ VNull); reflexivity.
Defined.

(** The listing is all or nothing.  With a token text and an answer whose
    [data] is an array, [getProjects] returns one [{ id, name }] record per
    entry, in order, with [id] the entry's [id] and [name] its
    [attributes.name], provided [attributes] can be read off every entry;
    a single entry that is [null] or has no [attributes] empties the whole
    result. *)
Theorem listing_is_all_or_nothing (env : apiService.Env) (http : apiService.Http)
    (l l1 : list apiService.Event) (token : string) (data : JsValue)
    (hubs : list JsValue) :
  apiService.getAccessToken env http l = (apiService.Done (VStr token), l1) ->
  token <> "" ->
  apiService.http_get http "https://developer.api.autodesk.com/" "project/v1/hubs"
    ("Bearer " ++ token) = apiService.Done data ->
  get data "data" = Normal (VArr hubs) ->
  fst (apiService.getProjects env http l)
    = apiService.Done
        (VArr (if forallb apiService.has_attributes hubs
               then map apiService.summary hubs
               else [])).
Proof.
  intros Htoken Hne Hget Hdata.
  rewrite (getProjects_run env http l l1 _ Htoken). cbv zeta.
  assert (Htruthy : truthy (VStr token) = true).
  { cbn. destruct (String.eqb token "") eqn:E; [|reflexivity].
    apply String.eqb_eq in E. contradiction. }
  rewrite Htruthy. cbn [negb to_string].
  change apiService.base_url with "https://developer.api.autodesk.com/".
  rewrite Hget, Hdata. cbn [apiService.array_map].
  pose proof (map_items_summary hubs) as Hmap.
  destruct (forallb apiService.has_attributes hubs).
  - now rewrite Hmap.
  - destruct Hmap as [e ->]. reflexivity.
Qed.

Lemma listing_is_all_or_nothing_witness :
  let hubs := [apiService.rest_hub "b.1" "One"; apiService.rest_hub "b.2" "Two"] in
  let http := apiService.mock (apiService.Done (token_body "tok"))
                (apiService.Done (apiService.rest_hubs hubs)) in
  fst (apiService.getProjects apiService.sample_env http [])
    = apiService.Done
        (VArr [VObj [("id", VStr "b.1"); ("name", VStr "One")];
               VObj [("id", VStr "b.2"); ("name", VStr "Two")]]).
Proof.
  intros hubs http.
  eapply (listing_is_all_or_nothing apiService.sample_env http [] _ "tok"
            (apiService.rest_hubs hubs) hubs);
    [reflexivity | discriminate | reflexivity | reflexivity].
Defined.

(** ** app.ts: the orchestrator on any answer *)

Lemma graphql_requests_app (a b : list Effect) :
  graphql_requests (a ++ b) = (graphql_requests a ++ graphql_requests b)%list.
Proof.
  induction a as [|ev a IH]; [reflexivity|].
  destruct ev; cbn; now rewrite IH.
Qed.

Lemma token_requests_app (a b : list Effect) :
  token_requests (a ++ b) = (token_requests a ++ token_requests b)%list.
Proof.
  induction a as [|ev a IH]; [reflexivity|].
  destruct ev; cbn; now rewrite IH.
Qed.

Lemma gateway_only_token_requests (evs : list Effect) :
  gateway_only evs = true -> token_requests evs = [].
Proof.
  induction evs as [|ev evs IH]; [reflexivity|].
  cbn. destruct ev; cbn; try discriminate; exact IH.
Qed.

(** The orchestrator never throws, for any token and any behaviour of the
    gateway (a throw of either query, a payload of any shape): it always
    returns a value.  It leaves the session slot as it found it, writes
    nothing to it and sends nothing to the token endpoint. *)
Theorem orchestrator_always_returns (bk : Backend) (token : JsValue) (w : World) :
  exists result evs,
    performGraphQLQuery bk token w
      = (Normal result, mkWorld (accessToken w) (effects w ++ evs))
    /\ session_writes evs = []
    /\ token_requests evs = [].
Proof.
  destruct (perform_returns bk token w) as (result & evs & Hrun & Hevs).
  exists result, evs. split; [exact Hrun|].
  split; [now apply gateway_only_no_session_write
         | now apply gateway_only_token_requests].
Qed.

Lemma print_hub_logs (hub : JsValue) (index : nat) (w : World) :
  exists c lines,
    print_hub hub index w = (c, log w lines) /\ graphql_requests lines = [].
Proof.
  unfold print_hub. unfold bind at 1. unfold lift at 1.
  destruct (get hub "id") as [id|e];
    [|exists (Thrown e), []; now rewrite log_nil].
  unfold bind at 1. unfold lift at 1.
  destruct (to_string id) as [ids|e];
    [|exists (Thrown e), []; now rewrite log_nil].
  unfold bind at 1. unfold lift at 1.
  destruct (get hub "name") as [nm|e];
    [|exists (Thrown e), []; now rewrite log_nil].
  unfold bind at 1. unfold lift at 1.
  destruct (to_string nm) as [nms|e];
    [|exists (Thrown e), []; now rewrite log_nil].
  eexists; eexists. split; reflexivity.
Qed.

Lemma forEach_print_hub_logs (items : list JsValue) :
  forall index w, exists c lines,
    forEach print_hub items index w = (c, log w lines)
    /\ graphql_requests lines = [].
Proof.
  induction items as [|hub rest IH]; intros index w.
  - exists (Normal tt), []. now rewrite log_nil.
  - cbn [forEach]. unfold bind at 1.
    destruct (print_hub_logs hub index w) as (c & lines & -> & Hlines).
    destruct c as [[]|e]; [|now exists (Thrown e), lines].
    destruct (IH (S index) (log w lines)) as (c' & lines' & -> & Hlines').
    exists c', (lines ++ lines')%list. rewrite log_log, graphql_requests_app, Hlines, Hlines'.
    split; reflexivity.
Qed.

Ltac caught :=
  unfold bind, console_error, console_log, throw, emit, ret;
  rewrite ?log_log; eexists; eexists; (split; [reflexivity|]).

Ltac only_hubs_asked Hlines :=
  left; rewrite ?graphql_requests_app, ?Hlines; reflexivity.

(** The GraphQL requests of a run of the orchestrator, in every case. *)
Lemma perform_request_cases (bk : Backend) (token : JsValue)
    (w : World) :
  exists result evs,
    performGraphQLQuery bk token w = (Normal result, log w evs)
    /\ match createGraphQLClient token with
       | Thrown _ => graphql_requests evs = []
       | Normal client =>
           graphql_requests evs = [(client, GetHubs)]
           \/ exists payload items hubId,
                client_request bk client GetHubs = Normal payload
                /\ hubs_of payload = Normal (VArr items)
                /\ items <> []
                /\ get (hd VUndef items) "id" = Normal hubId
                /\ graphql_requests evs
                   = [(client, GetHubs); (client, GetProjects hubId)]
       end.
Proof.
  unfold performGraphQLQuery, try_catch.
  unfold bind at 1. unfold lift at 1.
  destruct (createGraphQLClient token) as [client|e]; [|caught; reflexivity].
  unfold bind at 1. unfold getHubs, request. unfold bind at 1. unfold emit at 1.
  unfold lift at 1.
  destruct (client_request bk client GetHubs) as [payload|e] eqn:Hreq;
    [|caught; now left].
  unfold bind at 1. unfold lift at 1.
  destruct (get payload "hubs") as [hubs_field|e] eqn:Hfield; [|caught; now left].
  unfold bind at 1. unfold lift at 1.
  destruct (opt_get hubs_field "results") as [hubs|e] eqn:Hhubs; [|caught; now left].
  destruct (negb (truthy hubs) || length_is_zero hubs) eqn:Hcond; [caught; now left|].
  unfold bind at 1. unfold console_log at 1. unfold emit at 1.
  destruct hubs as [| | | | |items|]; try (caught; now left).
  unfold bind at 1.
  destruct (forEach_print_hub_logs items 0
              (log (log w [GraphQLRequest client GetHubs]) [ConsoleLog "Available Hubs:"]))
    as (c & lines & -> & Hlines).
  destruct c as [[]|e]; [|caught; only_hubs_asked Hlines].
  unfold bind at 1. unfold lift at 1.
  destruct (get (hd VUndef items) "id") as [hubId|e] eqn:Hid;
    [|caught; only_hubs_asked Hlines].
  unfold bind at 1. unfold lift at 1.
  destruct (to_string hubId) as [hubIdText|e]; [|caught; only_hubs_asked Hlines].
  unfold bind at 1. unfold console_log at 1. unfold emit at 1.
  unfold bind at 1. unfold getProjects, request. unfold bind at 1.
  unfold emit at 1. unfold lift at 1.
  assert (Hitems : items <> []) by (intros ->; discriminate).
  assert (Hpayload : hubs_of payload = Normal (VArr items))
    by (unfold hubs_of; now rewrite Hfield).
  rewrite !log_log.
  match goal with
  | |- context [log w ?evs] => set (sent := evs)
  end.
  assert (Hasked : forall tail,
             graphql_requests tail = [] ->
             graphql_requests (sent ++ tail)
             = [(client, GetHubs); (client, GetProjects hubId)]).
  { intros tail Htail. subst sent.
    rewrite !graphql_requests_app, Hlines, Htail. reflexivity. }
  destruct (client_request bk client (GetProjects hubId)) as [projectsResult|e].
  2:{ caught. right. exists payload, items, hubId. repeat split; try assumption.
      now apply Hasked. }
  unfold bind at 1. unfold lift at 1.
  destruct (get projectsResult "hub") as [hub_field|e].
  2:{ caught. right. exists payload, items, hubId. repeat split; try assumption.
      now apply Hasked. }
  unfold bind at 1. unfold lift at 1.
  destruct (opt_get hub_field "projects") as [projects_field|e].
  2:{ caught. right. exists payload, items, hubId. repeat split; try assumption.
      now apply Hasked. }
  unfold bind at 1. unfold lift at 1.
  destruct (opt_get projects_field "results") as [projects|e].
  2:{ caught. right. exists payload, items, hubId. repeat split; try assumption.
      now apply Hasked. }
  destruct (negb (truthy projects) || length_is_zero projects).
  - unfold bind at 1. unfold lift at 1.
    caught. right. exists payload, items, hubId. repeat split; try assumption.
    specialize (Hasked [] eq_refl). now rewrite app_nil_r in Hasked.
  - caught. right. exists payload, items, hubId. repeat split; try assumption.
    specialize (Hasked [] eq_refl). now rewrite app_nil_r in Hasked.
Qed.

(** The orchestrator sends at most two GraphQL requests, through the one
    client built from its token: the hubs query first, and the projects query
    only when the hubs answer held a non-empty array, then for the [id] of
    that array's first entry.  Nothing is retried, nothing is asked for any
    other entry, and when the client cannot be built nothing is sent. *)
Theorem orchestrator_request_discipline (bk : Backend) (token : JsValue)
    (w : World) :
  exists result evs,
    performGraphQLQuery bk token w = (Normal result, log w evs)
    /\ match createGraphQLClient token with
       | Thrown _ => graphql_requests evs = []
       | Normal client =>
           graphql_requests evs = [(client, GetHubs)]
           \/ exists payload items hubId,
                client_request bk client GetHubs = Normal payload
                /\ hubs_of payload = Normal (VArr items)
                /\ items <> []
                /\ get (hd VUndef items) "id" = Normal hubId
                /\ graphql_requests evs
                   = [(client, GetHubs); (client, GetProjects hubId)]
       end.
Proof. exact (perform_request_cases bk token w). Qed.

Lemma console_lines_app (a b : list Effect) :
  console_lines (a ++ b) = (console_lines a ++ console_lines b)%list.
Proof.
  induction a as [|ev a IH]; [reflexivity|].
  destruct ev; cbn; now rewrite IH.
Qed.

Lemma console_lines_hub_lines (items : list JsValue) :
  forall index,
    console_lines (hub_lines items index) = numbered_lines (S index) items.
Proof.
  induction items as [|hub rest IH]; intros index; [reflexivity|].
  cbn [hub_lines console_lines numbered_lines]. rewrite IH.
  unfold hub_line. now rewrite Nat.add_1_r.
Qed.

(** The listing shows every hub.  When the hubs answer holds a non-empty
    array of hubs, the console receives the heading, then one line per hub
    in the order of the array, numbered from 1, each with the hub's id and
    name, then the line naming the first hub as the one in use; this holds
    whatever the projects query does afterwards. *)
Theorem listing_prints_every_hub (bk : Backend) (token : string) (w : World)
    (payload hub : JsValue) (others : list JsValue) :
  client_request bk (client_of token) GetHubs = Normal payload ->
  hubs_of payload = Normal (VArr (hub :: others)) ->
  forallb is_hub (hub :: others) = true ->
  exists result evs,
    performGraphQLQuery bk (VStr token) w = (Normal result, log w evs)
    /\ console_lines evs
       = ("Available Hubs:" :: numbered_lines 1 (hub :: others)
            ++ [("Using Hub ID: " ++ text (field hub "id"))%string])%list.
Proof.
  intros Hreq Hhubs Hall.
  rewrite (perform_hubs_selected bk token w payload hub others Hreq Hhubs Hall).
  cbv zeta.
  assert (Hlines : forall tail,
             console_lines tail = [] ->
             console_lines ((selection_effects token (hub :: others)
                               ++ [GraphQLRequest (client_of token)
                                     (GetProjects (field hub "id"))]) ++ tail)
             = ("Available Hubs:" :: numbered_lines 1 (hub :: others)
                  ++ [("Using Hub ID: " ++ text (field hub "id"))%string])%list).
  { intros tail Htail. unfold selection_effects.
    rewrite !console_lines_app, console_lines_hub_lines, Htail.
    cbn [hd console_lines app]. now rewrite !app_nil_r. }
  destruct (client_request bk (client_of token) (GetProjects (field hub "id")))
    as [projectsResult|e].
  - destruct (projects_of projectsResult) as [projects|e].
    + destruct (negb (truthy projects) || length_is_zero projects);
        eexists; eexists; (split; [reflexivity|]);
        specialize (Hlines [] eq_refl); now rewrite app_nil_r in Hlines.
    + rewrite log_log. eexists; eexists; (split; [reflexivity|]).
      now apply Hlines.
  - rewrite log_log. eexists; eexists; (split; [reflexivity|]).
    now apply Hlines.
Qed.

Lemma listing_prints_every_hub_witness :
  exists result evs,
    performGraphQLQuery
      (mock (Normal (token_body "tok")) (Normal (hubs_payload [hub_one; hub_two]))
            (fun _ => Thrown unauthorized))
      (VStr "tok") fresh = (Normal result, log fresh evs)
    /\ console_lines evs
       = ["Available Hubs:"; "1. Hub ID: h1, Name: Hub One";
          "2. Hub ID: h2, Name: Hub Two"; "Using Hub ID: h1"].
Proof.
  apply (listing_prints_every_hub _ "tok" fresh
           (hubs_payload [hub_one; hub_two]) hub_one [hub_two]);
    reflexivity.
Defined.

(** ** app.ts: the callback on any request *)

(** The callback before the token request: a code that is truthy but has
    no text (an object with a [toString] member of its own) makes the form
    fail, and the handler answers 500 without calling anyone. *)
Lemma callback_code_without_text (cfg : Config) (bk : Backend)
    (query : list (string * JsValue)) (w : World) (e : JsError) :
  truthy (query_param query "code") = true ->
  to_string (query_param query "code") = Thrown e ->
  callback_handler cfg bk query w
    = (Normal (json 500 (error_details "Failed to obtain access token" (message e))),
       log w [ConsoleError "Error during OAuth callback:" e]).
Proof.
  intros Hcode Htext.
  unfold callback_handler. rewrite Hcode. cbn [negb]. unfold try_catch.
  unfold bind at 1. unfold lift at 1. rewrite Htext.
  unfold bind, console_error, emit, ret. reflexivity.
Qed.

(** A callback with a code sends at most one request to the token endpoint,
    and exactly one as soon as the code has a text (a string, a number, an
    array of such): whether the exchange then succeeds or fails, the form it
    posts reads back as exactly the five parameters of the authorization-code
    grant, the code arriving intact whatever characters it holds (an [&] or
    [=] in the code cannot add or alter a parameter).  A code that is truthy
    but cannot be converted to a text sends no request at all and is answered
    with the 500 value carrying the message of the conversion error. *)
Theorem callback_posts_one_well_formed_token_request (cfg : Config)
    (bk : Backend) (query : list (string * JsValue)) (w : World) :
  truthy (query_param query "code") = true ->
  exists r w' evs,
    callback_handler cfg bk query w = (Normal r, w')
    /\ effects w' = (effects w ++ evs)%list
    /\ match to_string (query_param query "code") with
       | Normal codeText =>
           exists body,
             token_requests evs
             = [("https://developer.api.autodesk.com/authentication/v2/token", body)]
             /\ urlencoded_parse body
                = [("client_id", CLIENT_ID cfg);
                   ("client_secret", CLIENT_SECRET cfg);
                   ("grant_type", "authorization_code");
                   ("code", codeText);
                   ("redirect_uri", "http://localhost:8080/api/auth/callback")]
       | Thrown e =>
           token_requests evs = []
           /\ r = mkResponse 500 None
                    (Some (VObj [("error", VStr "Failed to obtain access token");
                                 ("details", VStr (message e))]))
       end.
Proof.
  intros Hcode.
  destruct (to_string (query_param query "code")) as [codeText|e] eqn:Htext.
  2:{ rewrite (callback_code_without_text cfg bk query w e Hcode Htext).
      eexists; eexists; eexists. split; [reflexivity|].
      split; [reflexivity|]. split; reflexivity. }
  assert (Hbody : urlencoded_parse (token_request_body cfg codeText)
                  = token_params cfg codeText) by apply parse_toString.
  destruct (axios_post bk tokenUrl (token_request_body cfg codeText))
    as [tokens|e] eqn:Hpost.
  - destruct (get tokens "access_token") as [token|e] eqn:Htoken.
    + destruct (callback_exchanged cfg bk query w codeText tokens token
                  Hcode Htext Hpost Htoken) as (result & evs & _ & Hevs & ->).
      eexists; eexists;
        exists ([HttpPost tokenUrl (token_request_body cfg codeText);
                 SessionWrite token] ++ evs)%list.
      split; [reflexivity|]. split.
      * cbn [log effects]. now rewrite <- app_assoc.
      * exists (token_request_body cfg codeText).
        rewrite token_requests_app, (gateway_only_token_requests _ Hevs).
        split; [reflexivity|exact Hbody].
    + unfold callback_handler. rewrite Hcode. cbn [negb]. unfold try_catch.
      unfold bind at 1. unfold lift at 1. rewrite Htext.
      unfold bind at 1. unfold post. unfold bind at 1. unfold emit at 1.
      unfold lift at 1. fold (token_request_body cfg codeText). rewrite Hpost.
      unfold bind at 1. unfold lift at 1. rewrite Htoken.
      unfold bind, console_error, emit, ret. rewrite log_log.
      eexists; eexists; eexists.
      split; [reflexivity|]. split; [reflexivity|].
      exists (token_request_body cfg codeText). split; [reflexivity|exact Hbody].
  - unfold callback_handler. rewrite Hcode. cbn [negb]. unfold try_catch.
    unfold bind at 1. unfold lift at 1. rewrite Htext.
    unfold bind at 1. unfold post. unfold bind at 1. unfold emit at 1.
    unfold lift at 1. fold (token_request_body cfg codeText). rewrite Hpost.
    unfold bind, console_error, emit, ret. rewrite log_log.
    eexists; eexists; eexists.
    split; [reflexivity|]. split; [reflexivity|].
    exists (token_request_body cfg codeText). split; [reflexivity|exact Hbody].
Qed.

Lemma callback_posts_one_well_formed_token_request_witness :
  exists r w' evs,
    callback_handler sample_config (issuing "t1") (code_query "a&b=c d") fresh
      = (Normal r, w')
    /\ effects w' = (effects fresh ++ evs)%list
    /\ exists body,
         token_requests evs
         = [("https://developer.api.autodesk.com/authentication/v2/token", body)]
         /\ urlencoded_parse body
            = [("client_id", "client-id");
               ("client_secret", "client-secret");
               ("grant_type", "authorization_code");
               ("code", "a&b=c d");
               ("redirect_uri", "http://localhost:8080/api/auth/callback")].
Proof.
  apply (callback_posts_one_well_formed_token_request sample_config (issuing "t1")
           (code_query "a&b=c d") fresh).
  reflexivity.
Defined.

(** The code [{ toString: "1" }] of a query such as [?code[toString]=1]:
    truthy, without a text, answered 500 with no token request and no write
    of the session. *)
Example code_without_text_is_answered_500 :
  let query := [("code", VObj [("toString", VStr "1")])] in
  callback_handler sample_config (issuing "t1") query fresh
    = (Normal (mkResponse 500 None
                 (Some (VObj [("error", VStr "Failed to obtain access token");
                              ("details", VStr "Cannot convert object to primitive value")]))),
       log fresh [ConsoleError "Error during OAuth callback:"
                    (TypeError "Cannot convert object to primitive value")]).
Proof. reflexivity. Qed.

(** Every request is answered, never with a throw out of the handler, and
    the status follows from two decisions only: GET / answers 302; a
    callback answers 400 when its code is falsy (absent, or present but
    empty), 500 when the code is there and the exchange raises, 200 in every
    other case, whatever the orchestrator met. *)
Theorem every_request_is_answered (cfg : Config) (bk : Backend) (req : Request)
    (w : World) :
  exists r w',
    app cfg bk req w = (Normal r, w')
    /\ status r = match req with
                  | GetRoot => 302
                  | GetCallback query => callback_status cfg bk query
                  end.
Proof.
  destruct req as [|query]; cbn [app].
  - eexists; eexists. split; reflexivity.
  - unfold callback_status.
    destruct (truthy (query_param query "code")) eqn:Hcode; cbn [negb].
    + pose proof (callback_with_code cfg bk query w Hcode) as H.
      destruct (exchange cfg bk (query_param query "code")) as [token|e].
      * destruct H as (result & before & after & -> & _).
        eexists; eexists. split; reflexivity.
      * destruct H as (evs & -> & _). eexists; eexists. split; reflexivity.
    + rewrite (callback_without_code cfg bk query w Hcode).
      eexists; eexists. split; reflexivity.
Qed.

(** The redirect target is made of URL characters only, whatever the
    configured client id holds: ASCII letters, digits and
    [* - . _ + % = & ? : /].  In particular it holds no space, no carriage
    return and no line feed, so the client id cannot break the [Location]
    header. *)
Theorem redirect_target_is_clean (cfg : Config) (bk : Backend) (w : World) :
  exists url,
    app cfg bk GetRoot w = (Normal (mkResponse 302 (Some url) None), w)
    /\ all_chars url_char url = true
    /\ free_of " " url = true
    /\ free_of (ascii_of_nat 13) url = true
    /\ free_of (ascii_of_nat 10) url = true.
Proof.
  exists (authUrl ++ "?" ++ URLSearchParams_toString (authorize_params cfg)).
  assert (Hchars : all_chars url_char
                     (authUrl ++ "?" ++ URLSearchParams_toString (authorize_params cfg))
                   = true).
  { rewrite !all_chars_app.
    replace (all_chars url_char authUrl) with true by (vm_compute; reflexivity).
    replace (all_chars url_char "?") with true by (vm_compute; reflexivity).
    cbn [andb]. apply (all_chars_impl query_char); [|apply toString_chars].
    intros c Hc. unfold url_char. now rewrite Hc. }
  assert (Hfree : forall sep, url_char sep = false ->
             free_of sep (authUrl ++ "?" ++ URLSearchParams_toString (authorize_params cfg))
             = true).
  { intros sep Hsep. revert Hchars. apply all_chars_impl. intros c Hc.
    destruct (Ascii.eqb c sep) eqn:E; [|reflexivity].
    apply Ascii.eqb_eq in E. subst c. congruence. }
  split; [reflexivity|]. split; [exact Hchars|].
  split; [|split]; apply Hfree; vm_compute; reflexivity.
Qed.

(** What the callback hands to the gateway is what the session holds: after
    an exchange that yields the token value [token], the slot holds [token]
    and every GraphQL request of the run, the hubs query first, goes through
    the client [createGraphQLClient] builds from that same value. *)
Lemma callback_requests (cfg : Config) (bk : Backend)
    (query : list (string * JsValue)) (w : World) (codeText : string)
    (tokens token : JsValue) (client : GraphQLClient) :
  truthy (query_param query "code") = true ->
  to_string (query_param query "code") = Normal codeText ->
  axios_post bk tokenUrl (token_request_body cfg codeText) = Normal tokens ->
  get tokens "access_token" = Normal token ->
  createGraphQLClient token = Normal client ->
  exists result w' evs more,
    callback_handler cfg bk query w = (Normal (json 200 result), w')
    /\ accessToken w' = Some token
    /\ effects w' = (effects w ++ evs)%list
    /\ graphql_requests evs = (client, GetHubs) :: more
    /\ Forall (fun rq => fst rq = client) more.
Proof.
  intros Hcode Htext Hpost Htoken Hclient.
  destruct (callback_exchanged cfg bk query w codeText tokens token
              Hcode Htext Hpost Htoken) as (result & evs & Hrun & _ & ->).
  cbv zeta in Hrun.
  destruct (perform_request_cases bk token
              (mkWorld (Some token)
                 (effects w ++ [HttpPost tokenUrl (token_request_body cfg codeText);
                                SessionWrite token])))
    as (result' & evs' & Hrun' & Hreqs).
  rewrite Hrun in Hrun'. injection Hrun' as _ Hevs.
  apply app_inv_head in Hevs. subst evs'. rewrite Hclient in Hreqs.
  exists result. eexists.
  exists ([HttpPost tokenUrl (token_request_body cfg codeText); SessionWrite token]
            ++ evs)%list.
  destruct Hreqs as [Hone|(payload & items & hubId & _ & _ & _ & _ & Htwo)].
  - exists []. split; [reflexivity|]. split; [reflexivity|].
    split; [cbn [log effects]; now rewrite <- app_assoc|].
    rewrite graphql_requests_app, Hone. split; [reflexivity|constructor].
  - exists [(client, GetProjects hubId)].
    split; [reflexivity|]. split; [reflexivity|].
    split; [cbn [log effects]; now rewrite <- app_assoc|].
    rewrite graphql_requests_app, Htwo. split; [reflexivity|].
    repeat constructor.
Qed.

(** The token issued is the token presented: when the token endpoint
    answers with the access token text [token], the session slot holds it and
    every GraphQL request of the callback, the hubs query first, is sent to
    the GraphQL endpoint with the headers [Authorization: Bearer <token>] and
    [Content-Type: application/json]. *)
Theorem callback_presents_the_issued_token (cfg : Config) (bk : Backend)
    (query : list (string * JsValue)) (w : World) (codeText : string)
    (tokens : JsValue) (token : string) :
  truthy (query_param query "code") = true ->
  to_string (query_param query "code") = Normal codeText ->
  axios_post bk tokenUrl (token_request_body cfg codeText) = Normal tokens ->
  get tokens "access_token" = Normal (VStr token) ->
  let client := mkClient "https://developer.api.autodesk.com/graphql"
                  [("Authorization", "Bearer " ++ token);
                   ("Content-Type", "application/json")] in
  exists result w' evs more,
    callback_handler cfg bk query w = (Normal (json 200 result), w')
    /\ accessToken w' = Some (VStr token)
    /\ effects w' = (effects w ++ evs)%list
    /\ graphql_requests evs = (client, GetHubs) :: more
    /\ Forall (fun rq => fst rq = client) more.
Proof.
  intros Hcode Htext Hpost Htoken client.
  now apply (callback_requests cfg bk query w codeText tokens (VStr token) client).
Qed.

Lemma callback_presents_the_issued_token_witness :
  let client := mkClient "https://developer.api.autodesk.com/graphql"
                  [("Authorization", "Bearer t1");
                   ("Content-Type", "application/json")] in
  exists result w' evs more,
    callback_handler sample_config (issuing "t1") (code_query "c1") fresh
      = (Normal (json 200 result), w')
    /\ accessToken w' = Some (VStr "t1")
    /\ effects w' = (effects fresh ++ evs)%list
    /\ graphql_requests evs = (client, GetHubs) :: more
    /\ Forall (fun rq => fst rq = client) more.
Proof.
  apply (callback_presents_the_issued_token sample_config (issuing "t1")
           (code_query "c1") fresh "c1" (token_body "t1") "t1");
    reflexivity.
Defined.

(** A token answer without [access_token] is not noticed: when the token
    endpoint answers 2xx with data that is not null and has no such
    property, the callback stores [undefined] in the session, sends the hubs
    query with the header [Authorization: Bearer undefined], and answers
    HTTP 200 with whatever the orchestrator returns. *)
Theorem missing_access_token_goes_out_as_undefined (cfg : Config) (bk : Backend)
    (query : list (string * JsValue)) (w : World) (codeText : string)
    (tokens : JsValue) :
  truthy (query_param query "code") = true ->
  to_string (query_param query "code") = Normal codeText ->
  axios_post bk tokenUrl (token_request_body cfg codeText) = Normal tokens ->
  nullish tokens = false ->
  field tokens "access_token" = VUndef ->
  let client := mkClient "https://developer.api.autodesk.com/graphql"
                  [("Authorization", "Bearer undefined");
                   ("Content-Type", "application/json")] in
  exists result w' evs more,
    callback_handler cfg bk query w = (Normal (json 200 result), w')
    /\ accessToken w' = Some VUndef
    /\ effects w' = (effects w ++ evs)%list
    /\ graphql_requests evs = (client, GetHubs) :: more
    /\ Forall (fun rq => fst rq = client) more.
Proof.
  intros Hcode Htext Hpost Hnull Hfield client.
  apply (callback_requests cfg bk query w codeText tokens VUndef client);
    try assumption; [|reflexivity].
  now rewrite (get_field _ _ Hnull), Hfield.
Qed.

Lemma missing_access_token_goes_out_as_undefined_witness :
  let bk := mock (Normal malformed_token_body) (Thrown unauthorized)
                 (fun _ => Thrown unauthorized) in
  let client := mkClient "https://developer.api.autodesk.com/graphql"
                  [("Authorization", "Bearer undefined");
                   ("Content-Type", "application/json")] in
  exists result w' evs more,
    callback_handler sample_config bk (code_query "abc") fresh
      = (Normal (json 200 result), w')
    /\ accessToken w' = Some VUndef
    /\ effects w' = (effects fresh ++ evs)%list
    /\ graphql_requests evs = (client, GetHubs) :: more
    /\ Forall (fun rq => fst rq = client) more.
Proof.
  intros bk.
  apply (missing_access_token_goes_out_as_undefined sample_config bk
           (code_query "abc") fresh "abc" malformed_token_body);
    reflexivity.
Defined.

(** ** app.ts: answers that are not objects *)

(** A hubs answer that is [null] or [undefined] is a query error, not an
    empty result: reading [hubs] off it throws, the orchestrator returns the
    catch-all value with the message of that TypeError, and the hubs query
    is the only request of the run. *)
Theorem null_hubs_answer_is_a_query_error (bk : Backend) (token : string)
    (w : World) (payload : JsValue) :
  client_request bk (client_of token) GetHubs = Normal payload ->
  nullish payload = true ->
  performGraphQLQuery bk (VStr token) w
    = (Normal (VObj [("error", VStr "An error occurred during the GraphQL query");
                     ("details", VStr ("Cannot read properties of "
                                         ++ type_name payload
                                         ++ " (reading 'hubs')"))]),
       log w [GraphQLRequest (client_of token) GetHubs;
              ConsoleError "Error during GraphQL query:"
                (TypeError ("Cannot read properties of " ++ type_name payload
                              ++ " (reading 'hubs')"))]).
Proof.
  intros Hreq Hnull. unfold performGraphQLQuery, try_catch.
  unfold bind at 1. unfold lift at 1. cbn [createGraphQLClient to_string].
  fold (client_of token).
  unfold bind at 1. unfold getHubs, request. unfold bind at 1. unfold emit at 1.
  unfold lift at 1. rewrite Hreq.
  unfold bind at 1. unfold lift at 1.
  destruct payload; try discriminate; cbn [get type_name];
    unfold bind, console_error, emit, ret; rewrite ?log_log; reflexivity.
Qed.

Lemma null_hubs_answer_is_a_query_error_witness :
  performGraphQLQuery
    (mock (Normal (token_body "tok")) (Normal VNull)
          (fun _ => Normal (projects_payload [project_alpha])))
    (VStr "tok") fresh
    = (Normal (VObj [("error", VStr "An error occurred during the GraphQL query");
                     ("details", VStr "Cannot read properties of null (reading 'hubs')")]),
       log fresh [GraphQLRequest (client_of "tok") GetHubs;
                  ConsoleError "Error during GraphQL query:"
                    (TypeError "Cannot read properties of null (reading 'hubs')")]).
Proof.
  apply (null_hubs_answer_is_a_query_error _ "tok" fresh VNull); reflexivity.
Defined.

(** Likewise for the projects query: once a hub is selected, a [null] or
    [undefined] answer is reported through the catch-all value with the
    TypeError's message, not as "No projects found". *)
Theorem null_projects_answer_is_a_query_error (bk : Backend) (token : string)
    (w : World) (payload hub : JsValue) (others : list JsValue)
    (projectsResult : JsValue) :
  client_request bk (client_of token) GetHubs = Normal payload ->
  hubs_of payload = Normal (VArr (hub :: others)) ->
  forallb is_hub (hub :: others) = true ->
  client_request bk (client_of token) (GetProjects (field hub "id"))
    = Normal projectsResult ->
  nullish projectsResult = true ->
  fst (performGraphQLQuery bk (VStr token) w)
    = Normal (VObj [("error", VStr "An error occurred during the GraphQL query");
                    ("details", VStr ("Cannot read properties of "
                                        ++ type_name projectsResult
                                        ++ " (reading 'hub')"))]).
Proof.
  intros Hreq Hhubs Hall Hproj Hnull.
  rewrite (perform_hubs_selected bk token w payload hub others Hreq Hhubs Hall).
  cbv zeta. rewrite Hproj.
  destruct projectsResult; try discriminate; reflexivity.
Qed.

Lemma null_projects_answer_is_a_query_error_witness :
  fst (performGraphQLQuery
         (mock (Normal (token_body "tok")) (Normal (hubs_payload [hub_one]))
               (fun _ => Normal VNull))
         (VStr "tok") fresh)
    = Normal (VObj [("error", VStr "An error occurred during the GraphQL query");
                    ("details", VStr "Cannot read properties of null (reading 'hub')")]).
Proof.
  apply (null_projects_answer_is_a_query_error _ "tok" fresh
           (hubs_payload [hub_one]) hub_one [] VNull);
    reflexivity.
Defined.
